(** * qbserver: the resilient credential store and the credential service

    A shallow embedding of the Go packages [auth] (token stores, OAuth
    service, callback handler) and [redis] (health checker) of qbserver,
    and the properties of the design document proved about it.

    Go code that talks to the outside world (the clock, the Redis server,
    the upstream HTTP endpoints, the injected health function) is modelled
    by explicit state passing over a [World], with the outside world's
    answers read from an oracle [Env] indexed by a step counter. *)

From Stdlib Require Import ZArith Lia List Bool.
From stdpp Require Import base option gmap strings list.

Open Scope Z_scope.

(** ** Go's [time] package, as far as the code uses it *)

Module GoTime.

(** [time.Duration] is an int64 count of nanoseconds. *)
Definition minDuration : Z := - 2 ^ 63.
Definition maxDuration : Z := 2 ^ 63 - 1.

(** int64 arithmetic wraps around. *)
Definition wrap64 (z : Z) : Z := (z + 2 ^ 63) mod 2 ^ 64 - 2 ^ 63.

Definition Second : Z := 1000000000.
Definition Minute : Z := 60 * Second.
Definition Hour : Z := 60 * Minute.

(** [time.Time] is modelled as an instant in nanoseconds, unbounded. *)
Definition Time : Type := Z.

(** [t.Add(d)] *)
Definition Add (t : Time) (d : Z) : Time := t + d.

(** [t.Sub(u)]: the difference, saturated to the range of a Duration. *)
Definition Sub (t u : Time) : Z :=
  if t - u <? minDuration then minDuration
  else if maxDuration <? t - u then maxDuration
  else t - u.

(** [time.Until(t)], with [now] the reading of [time.Now()]. *)
Definition Until (now t : Time) : Z := Sub t now.

(** [time.Duration(n) * time.Second] for an [int] n. *)
Definition Seconds (n : Z) : Z := wrap64 (n * Second).

End GoTime.

(** ** auth/models.go *)

Module Models.

(** [OAuthToken]: token data from QuickBooks. *)
Record OAuthToken : Type := mkToken {
  AccessToken : string;
  RefreshToken : string;
  TokenType : string;
  ExpiresIn : Z;
  ExpiresAt : GoTime.Time;
  RealmID : string;
}.

Definition set_ExpiresAt (t : OAuthToken) (e : GoTime.Time) : OAuthToken :=
  mkToken (AccessToken t) (RefreshToken t) (TokenType t) (ExpiresIn t) e (RealmID t).
Definition set_RealmID (t : OAuthToken) (r : string) : OAuthToken :=
  mkToken (AccessToken t) (RefreshToken t) (TokenType t) (ExpiresIn t) (ExpiresAt t) r.
Definition set_RefreshToken (t : OAuthToken) (r : string) : OAuthToken :=
  mkToken (AccessToken t) r (TokenType t) (ExpiresIn t) (ExpiresAt t) (RealmID t).

(** [OAuthConfig] *)
Record OAuthConfig : Type := mkConfig {
  ClientID : string;
  ClientSecret : string;
  RedirectURI : string;
  Scopes : list string;
  AuthURL : string;
  TokenURL : string;
  APIBaseURL : string;
}.

End Models.
Export Models.

(** Go [error] values the modelled code creates.  [ErrWrap msg e] is
    [fmt.Errorf(msg + ": %w", e)]. *)
Inductive error : Type :=
| ErrMarshal                (* failed to marshal token *)
| ErrRedisSet               (* failed to save token (SET failed) *)
| ErrRedisNil               (* no token found for user (redis.Nil) *)
| ErrRedisGet               (* failed to get token (GET failed) *)
| ErrUnmarshal              (* failed to unmarshal token *)
| ErrRedisDel               (* failed to delete token (DEL failed) *)
| ErrTokenNotFound          (* token not found for user (fallback store) *)
| ErrCreateRequest          (* failed to create token/revoke request *)
| ErrRequestFailed          (* token/revoke request failed (transport) *)
| ErrStatus (code : Z) (body : string)  (* request failed with status *)
| ErrParseResponse          (* failed to parse token response *)
| ErrWrap (msg : string) (e : error).

(** A Go result pair [(T, error)]. *)
Inductive result (A : Type) : Type :=
| Ok (a : A)
| Err (e : error).
Arguments Ok {A} a.
Arguments Err {A} e.

(** ** The world of the model *)

(** The observable actions of the program, recorded in [trace], the newest
    first.  [EvRedisSaveToken] is instrumentation: a call of
    [RedisTokenStore.SaveToken] and the error it returned. *)
Inductive Event : Type :=
| EvLock | EvUnlock | EvRLock | EvRUnlock          (* cacheMutex *)
| EvRedisSaveToken (userID : string) (err : option error)
| EvRedisSet (key data : string) (ttl : Z)
| EvRedisGet (key : string)
| EvRedisDel (key : string)
| EvTokenRequest (form : list (string * string))
| EvRevokeRequest (url token : string)
| EvLog (msg : string) (e : error).

(** What an HTTP exchange ([http.NewRequestWithContext] and [client.Do])
    comes to. *)
Inductive HttpOutcome : Type :=
| HttpBuildErr                              (* the request could not be built *)
| HttpTransportErr                          (* client.Do failed, or ctx cancelled *)
| HttpStatus (code : Z) (body : string).    (* a response arrived *)

(** Pointers [*OAuthToken] are locations of a heap of token objects. *)
Definition ptr : Type := positive.

(** The outside world's answers, indexed by the step at which they are
    asked for. *)
Record Env : Type := mkEnv {
  clock : nat -> GoTime.Time;         (* time.Now() *)
  healthCheck : nat -> bool;          (* FallbackTokenStore.healthCheck *)
  redisUp : nat -> bool;              (* does the Redis command succeed *)
  httpDo : nat -> HttpOutcome;        (* the upstream's answer *)
  (* encoding/json on OAuthToken: Marshal fails on a time whose year is
     outside 0..9999, Unmarshal on bytes that are not a token document *)
  json_Marshal : OAuthToken -> option string;
  json_Unmarshal : string -> option OAuthToken;
  (* json.NewDecoder(body).Decode(&token), from the zero token *)
  json_Decode : string -> option OAuthToken;
  (* the order in which a range loop visits a map *)
  rangeOrder : nat -> gmap string ptr -> list (string * ptr);
  (* url.Parse(u).Query().Get(k) *)
  url_Query_Get : string -> string -> string;
}.

(** The state of the process and of the Redis server.  The server keeps
    the ttl of each SET; the expiry of entries is not simulated. *)
Record World : Type := mkWorld {
  heap : gmap ptr OAuthToken;             (* token objects *)
  localCache : gmap string ptr;           (* FallbackTokenStore.localCache *)
  redisDB : gmap string (string * Z);     (* Redis: key -> (value, ttl of SET) *)
  step : nat;                             (* next oracle index *)
  trace : list Event;                     (* newest first *)
}.

Definition set_heap (w : World) (h : gmap ptr OAuthToken) : World :=
  mkWorld h (localCache w) (redisDB w) (step w) (trace w).
Definition set_localCache (w : World) (c : gmap string ptr) : World :=
  mkWorld (heap w) c (redisDB w) (step w) (trace w).
Definition set_redisDB (w : World) (d : gmap string (string * Z)) : World :=
  mkWorld (heap w) (localCache w) d (step w) (trace w).
Definition set_step (w : World) (n : nat) : World :=
  mkWorld (heap w) (localCache w) (redisDB w) n (trace w).
Definition set_trace (w : World) (t : list Event) : World :=
  mkWorld (heap w) (localCache w) (redisDB w) (step w) t.

(** ** The monad of the model

    A computation takes the world and either panics ([None]: a nil pointer
    dereference in Go) or returns a value and the next world. *)

Definition M (A : Type) : Type := World -> option (A * World).

Definition ret {A} (a : A) : M A := fun w => Some (a, w).
Definition bind {A B} (c : M A) (k : A -> M B) : M B :=
  fun w => match c w with
           | Some (a, w') => k a w'
           | None => None
           end.
Definition panic {A} : M A := fun _ => None.

Notation "'let*' x ':=' c 'in' k" := (bind c (fun x => k))
  (at level 10, x name, c at level 100, k at level 200).

Definition emit (e : Event) : M unit :=
  fun w => Some (tt, set_trace w (e :: trace w)).

(** Ask the oracle: the current step is returned and the counter advances. *)
Definition tick : M nat :=
  fun w => Some (step w, set_step w (S (step w))).

(** [*p]: a dereference; panics on a pointer that is not allocated (nil). *)
Definition load (p : ptr) : M OAuthToken :=
  fun w => match heap w !! p with
           | Some t => ret t w
           | None => panic w
           end.

(** [*p = t] *)
Definition store (p : ptr) (t : OAuthToken) : M unit :=
  fun w => match heap w !! p with
           | Some _ => Some (tt, set_heap w (<[p := t]> (heap w)))
           | None => panic w
           end.

(** [&token] of a fresh local: a new object. *)
Definition alloc (t : OAuthToken) : M ptr :=
  fun w => let p := fresh (dom (heap w)) in
           Some (p, set_heap w (<[p := t]> (heap w))).

(** [time.Now()] *)
Definition now (env : Env) : M GoTime.Time :=
  let* n := tick in ret (clock env n).

(** [TokenStore]: the interface of the token storage implementations. *)
Record TokenStore : Type := mkStore {
  SaveToken : string -> ptr -> M (option error);
  GetToken : string -> M (result ptr);
  DeleteToken : string -> M (option error);
}.

(** ** auth/token_store.go: the Redis-backed store *)

Module RedisTokenStore.
Section Methods.
Variable env : Env.
(** The receiver's [prefix]; its [client] is the connection to [redisDB]. *)
Variable prefix : string.

(** [key] generates the Redis key for a user's token:
    [fmt.Sprintf("%s:token:%s", s.prefix, userID)]. *)
Definition key (userID : string) : string :=
  prefix +:+ ":token:" +:+ userID.

(** [SaveToken] stores a token for a user. *)
Definition SaveToken (userID : string) (token : ptr) : M (option error) :=
  let* t := load token in
  let* err :=
    match json_Marshal env t with
    | None => ret (Some (ErrWrap "failed to marshal token" ErrMarshal))
    | Some data =>
        (* TTL based on token expiry plus a buffer *)
        let* n := now env in
        let ttl := GoTime.wrap64 (GoTime.Until n (ExpiresAt t) + 24 * GoTime.Hour) in
        let* _ := emit (EvRedisSet (key userID) data ttl) in
        let* i := tick in
        if redisUp env i then
          let* _ := (fun w => Some (tt, set_redisDB w (<[key userID := (data, ttl)]> (redisDB w)))) in
          ret None
        else ret (Some (ErrWrap "failed to save token" ErrRedisSet))
    end in
  let* _ := emit (EvRedisSaveToken userID err) in
  ret err.

(** [GetToken] retrieves a token for a user. *)
Definition GetToken (userID : string) : M (result ptr) :=
  let* _ := emit (EvRedisGet (key userID)) in
  let* i := tick in
  if redisUp env i then
    let* db := (fun w => Some (redisDB w, w)) in
    match db !! key userID with
    | None => ret (Err ErrRedisNil)
    | Some (data, _) =>
        match json_Unmarshal env data with
        | None => ret (Err (ErrWrap "failed to unmarshal token" ErrUnmarshal))
        | Some t => let* p := alloc t in ret (Ok p)
        end
    end
  else ret (Err (ErrWrap "failed to get token" ErrRedisGet)).

(** [DeleteToken] removes a user's token. *)
Definition DeleteToken (userID : string) : M (option error) :=
  let* _ := emit (EvRedisDel (key userID)) in
  let* i := tick in
  if redisUp env i then
    let* _ := (fun w => Some (tt, set_redisDB w (delete (key userID) (redisDB w)))) in
    ret None
  else ret (Some (ErrWrap "failed to delete token" ErrRedisDel)).

Definition store : TokenStore := mkStore SaveToken GetToken DeleteToken.

End Methods.
End RedisTokenStore.

(** ** auth/token_store_fallback.go: the resilient store *)

Module FallbackTokenStore.
Section Methods.
Variable env : Env.
(** The receiver: [redisStore] (its prefix); [localCache] lives in the
    world; [healthCheck] is the oracle's. *)
Variable prefix : string.

(** [s.healthCheck()] *)
Definition healthy : M bool :=
  let* i := tick in ret (healthCheck env i).

(** [s.localCache[userID] = token] *)
Definition cachePut (userID : string) (token : ptr) : M unit :=
  fun w => Some (tt, set_localCache w (<[userID := token]> (localCache w))).

(** [token, exists := s.localCache[userID]] *)
Definition cacheGet (userID : string) : M (option ptr) :=
  fun w => Some (localCache w !! userID, w).

(** [delete(s.localCache, userID)] *)
Definition cacheDelete (userID : string) : M unit :=
  fun w => Some (tt, set_localCache w (delete userID (localCache w))).

(** [SaveToken] stores a token in Redis and local cache. *)
Definition SaveToken (userID : string) (token : ptr) : M (option error) :=
  (* Update local cache *)
  let* _ := emit EvLock in
  let* _ := cachePut userID token in
  let* _ := emit EvUnlock in
  (* If Redis is healthy, update it too *)
  let* h := healthy in
  let* _ :=
    if h then
      let* err := RedisTokenStore.SaveToken env prefix userID token in
      match err with
      | Some e => emit (EvLog "Warning: Failed to save token to Redis" e)
      | None => ret tt
      end
    else ret tt in
  ret None.

(** [GetToken] retrieves a token, trying Redis first, falling back to
    local cache. *)
Definition GetToken (userID : string) : M (result ptr) :=
  let fromCache : M (result ptr) :=
    let* _ := emit EvRLock in
    let* c := cacheGet userID in
    let* _ := emit EvRUnlock in
    match c with
    | Some token => ret (Ok token)
    | None => ret (Err ErrTokenNotFound)
    end in
  let* h := healthy in
  if h then
    let* r := RedisTokenStore.GetToken env prefix userID in
    match r with
    | Ok token =>
        let* _ := emit EvLock in
        let* _ := cachePut userID token in
        let* _ := emit EvUnlock in
        ret (Ok token)
    | Err e =>
        let* _ := emit (EvLog "Warning: Failed to get token from Redis" e) in
        fromCache
    end
  else fromCache.

(** [DeleteToken] removes a token from both stores. *)
Definition DeleteToken (userID : string) : M (option error) :=
  let* _ := emit EvLock in
  let* _ := cacheDelete userID in
  let* _ := emit EvUnlock in
  let* h := healthy in
  let* _ :=
    if h then
      let* err := RedisTokenStore.DeleteToken env prefix userID in
      match err with
      | Some e => emit (EvLog "Warning: Failed to delete token from Redis" e)
      | None => ret tt
      end
    else ret tt in
  ret None.

(** The replication of the snapshot: the loop
    [for id, token := range tokensToReplicate]. *)
Fixpoint replicate (tokensToReplicate : list (string * ptr)) : M unit :=
  match tokensToReplicate with
  | [] => ret tt
  | (id, token) :: rest =>
      let* err := RedisTokenStore.SaveToken env prefix id token in
      let* _ :=
        match err with
        | Some e => emit (EvLog ("Replication error for user " +:+ id) e)
        | None => ret tt
        end in
      replicate rest
  end.

(** One pass of the replication routine: the body of [case <-ticker.C]. *)
Definition replicationPass : M unit :=
  let* h := healthy in
  if negb h then ret tt
  else
    (* Copy tokens that need replication *)
    let* _ := emit EvRLock in
    let* tokensToReplicate := (fun w => Some (localCache w, w)) in
    let* _ := emit EvRUnlock in
    (* Replicate to Redis *)
    let* i := tick in
    replicate (rangeOrder env i tokensToReplicate).

(** [StartReplicationRoutine]: the goroutine's loop, for the [ticks] ticks
    the ticker delivers before [ctx.Done()]. *)
Fixpoint StartReplicationRoutine (ticks : nat) : M unit :=
  match ticks with
  | O => ret tt
  | S n => let* _ := replicationPass in StartReplicationRoutine n
  end.

Definition store : TokenStore := mkStore SaveToken GetToken DeleteToken.

End Methods.
End FallbackTokenStore.

(** ** auth/service.go: the OAuth service *)

(** [p.f] and [p.f = v] on a token object. *)
Definition getf {A} (p : ptr) (f : OAuthToken -> A) : M A :=
  let* t := load p in ret (f t).
Definition setf (p : ptr) (upd : OAuthToken -> OAuthToken) : M unit :=
  let* t := load p in store p (upd t).

Module Service.
Section Methods.
Variable env : Env.
(** The receiver's fields. *)
Variable config : OAuthConfig.
Variable tokenStore : TokenStore.

(** [executeTokenRequest] performs the actual token request to QuickBooks.
    [data] is the form, in the order of the [data.Set] calls. *)
Definition executeTokenRequest (data : list (string * string)) : M (result ptr) :=
  let* i := tick in
  match httpDo env i with
  | HttpBuildErr =>
      ret (Err (ErrWrap "failed to create token request" ErrCreateRequest))
  | HttpTransportErr =>
      let* _ := emit (EvTokenRequest data) in
      ret (Err (ErrWrap "token request failed" ErrRequestFailed))
  | HttpStatus code body =>
      let* _ := emit (EvTokenRequest data) in
      if negb (code =? 200) then ret (Err (ErrStatus code body))
      else
        match json_Decode env body with
        | None => ret (Err (ErrWrap "failed to parse token response" ErrParseResponse))
        | Some token =>
            (* Parse realm ID from query params if it exists *)
            let realmID := url_Query_Get env (TokenURL config) "realm_id" in
            let token := if String.eqb realmID "" then token
                         else set_RealmID token realmID in
            let* p := alloc token in
            ret (Ok p)
        end
  end.

(** [HandleCallback] processes the OAuth callback and exchanges the code
    for tokens. *)
Definition HandleCallback (code state userID : string) : M (result ptr) :=
  let* r := executeTokenRequest
              [("grant_type", "authorization_code"); ("code", code);
               ("redirect_uri", RedirectURI config)] in
  match r with
  | Err e => ret (Err e)
  | Ok token =>
      (* Set expiry time *)
      let* n := now env in
      let* expiresIn := getf token ExpiresIn in
      let* _ := setf token (fun t => set_ExpiresAt t (GoTime.Add n (GoTime.Seconds expiresIn))) in
      (* Save token *)
      let* err := SaveToken tokenStore userID token in
      match err with
      | Some e => ret (Err (ErrWrap "failed to save token" e))
      | None => ret (Ok token)
      end
  end.

(** [RefreshToken] refreshes an expired access token. *)
Definition RefreshToken (userID : string) : M (result ptr) :=
  (* Get current token *)
  let* r := GetToken tokenStore userID in
  match r with
  | Err e => ret (Err (ErrWrap "failed to get token for refresh" e))
  | Ok token =>
      let* oldRefresh := getf token Models.RefreshToken in
      (* Execute refresh *)
      let* r2 := executeTokenRequest
                   [("grant_type", "refresh_token"); ("refresh_token", oldRefresh)] in
      match r2 with
      | Err e => ret (Err e)
      | Ok newToken =>
          (* Update token fields *)
          let* n := now env in
          let* expiresIn := getf newToken ExpiresIn in
          let* _ := setf newToken (fun t => set_ExpiresAt t (GoTime.Add n (GoTime.Seconds expiresIn))) in
          let* realmID := getf token RealmID in
          let* _ := setf newToken (fun t => set_RealmID t realmID) in (* Preserve realm ID *)
          (* If the refresh token was not returned, reuse the existing one *)
          let* newRefresh := getf newToken Models.RefreshToken in
          let* _ :=
            if String.eqb newRefresh "" then
              let* oldRefresh := getf token Models.RefreshToken in
              setf newToken (fun t => set_RefreshToken t oldRefresh)
            else ret tt in
          (* Save updated token *)
          let* err := SaveToken tokenStore userID newToken in
          match err with
          | Some e => ret (Err (ErrWrap "failed to save refreshed token" e))
          | None => ret (Ok newToken)
          end
      end
  end.

(** [GetValidToken] returns a valid token, refreshing it if necessary. *)
Definition GetValidToken (userID : string) : M (result ptr) :=
  let* r := GetToken tokenStore userID in
  match r with
  | Err e => ret (Err (ErrWrap "failed to get token" e))
  | Ok token =>
      (* Check if token is expired or about to expire (within 5 minutes) *)
      let* expiresAt := getf token ExpiresAt in
      let* n := now env in
      if GoTime.Until n expiresAt <? 5 * GoTime.Minute then
        let* r2 := RefreshToken userID in
        match r2 with
        | Err e => ret (Err (ErrWrap "failed to refresh token" e))
        | Ok token => ret (Ok token)
        end
      else ret (Ok token)
  end.

(** [revokeToken] revokes a token with QuickBooks. *)
Definition revokeToken (token : string) : M (option error) :=
  let url := APIBaseURL config +:+ "/oauth2/v1/tokens/revoke" in
  let* i := tick in
  match httpDo env i with
  | HttpBuildErr =>
      ret (Some (ErrWrap "failed to create revoke request" ErrCreateRequest))
  | HttpTransportErr =>
      let* _ := emit (EvRevokeRequest url token) in
      ret (Some (ErrWrap "revoke request failed" ErrRequestFailed))
  | HttpStatus code body =>
      let* _ := emit (EvRevokeRequest url token) in
      if negb (code =? 200) then ret (Some (ErrStatus code body))
      else ret None
  end.

(** [Disconnect] revokes tokens and removes from storage. *)
Definition Disconnect (userID : string) : M (option error) :=
  (* Get token *)
  let* r := GetToken tokenStore userID in
  match r with
  | Err e => ret (Some (ErrWrap "failed to get token for revocation" e))
  | Ok token =>
      (* Revoke access token *)
      let* access := getf token AccessToken in
      let* err := revokeToken access in
      match err with
      | Some e => ret (Some e)
      | None =>
          (* Revoke refresh token *)
          let* refresh := getf token Models.RefreshToken in
          let* err := revokeToken refresh in
          match err with
          | Some e => ret (Some e)
          | None =>
              (* Remove from storage *)
              DeleteToken tokenStore userID
          end
      end
  end.

End Methods.
End Service.

(** ** auth/handlers.go: the callback handler *)

Module Handler.

(** The session values the handler reads, and whether [session.Save]
    succeeds. *)
Record Session : Type := mkSession {
  qb_state : option string;          (* session.Values["qb_state"].(string) *)
  qb_state_expiry : option Z;        (* session.Values["qb_state_expiry"].(int64) *)
  session_Save_ok : bool;
}.

(** The parts of the request the handler reads. *)
Record Request : Type := mkRequest {
  ctxUserID : string;                (* GetUserID(r.Context()) *)
  queryCode : string;                (* query.Get("code") *)
  queryState : string;               (* query.Get("state") *)
  queryRealmId : string;             (* query.Get("realmId") *)
  session : Session;
}.

(** What is written to the [http.ResponseWriter]. *)
Inductive Response : Type :=
| HttpError (msg : string) (status : Z)
| HttpSuccess (realm_id : string).     (* 200, status success *)

Section Methods.
Variable env : Env.
Variable config : OAuthConfig.
(** [h.service.tokenStore] *)
Variable tokenStore : TokenStore.

(** [CallbackHandler] handles the OAuth callback from QuickBooks. *)
Definition CallbackHandler (r : Request) : M Response :=
  let userID := ctxUserID r in
  if String.eqb userID "" then ret (HttpError "Unauthorized" 401)
  else
    let code := queryCode r in
    let state := queryState r in
    let realmID := queryRealmId r in
    if String.eqb code "" || String.eqb state "" then
      ret (HttpError "Invalid callback parameters" 400)
    else
      (* Verify state parameter *)
      match qb_state (session r) with
      | None => ret (HttpError "Invalid state parameter" 400)
      | Some savedState =>
          if negb (String.eqb savedState state) then
            ret (HttpError "Invalid state parameter" 400)
          else
            (* Verify state hasn't expired *)
            let* expired :=
              match qb_state_expiry (session r) with
              | None => ret true
              | Some expiry =>
                  let* n := now env in          (* time.Now().Unix() > expiry *)
                  ret (expiry <? n / GoTime.Second)
              end in
            if expired then ret (HttpError "State parameter expired" 400)
            else if negb (session_Save_ok (session r)) then
              ret (HttpError "Failed to save session" 500)
            else
              (* Exchange code for token *)
              let* res := Service.HandleCallback env config tokenStore code state userID in
              match res with
              | Err e => ret (HttpError "Failed to exchange code for token" 500)
              | Ok token =>
                  (* Set realm ID from callback *)
                  let* saved :=
                    if negb (String.eqb realmID "") then
                      let* _ := setf token (fun t => set_RealmID t realmID) in
                      (* Save updated token *)
                      let* err := SaveToken tokenStore userID token in
                      match err with
                      | Some _ => ret false
                      | None => ret true
                      end
                    else ret true in
                  if saved then
                    let* realm := getf token RealmID in
                    ret (HttpSuccess realm)
                  else ret (HttpError "Failed to save token with realm ID" 500)
              end
      end.

End Methods.
End Handler.

(** ** The circuit breaker of the health checker *)

Module gobreaker.

Inductive State : Type := StateClosed | StateHalfOpen | StateOpen.

(** The probe handed to [Execute]: what [h.client.Ping(ctx).Result()]
    returns when it is run. *)
Inductive PingResult : Type :=
| PingOk (reply : string)
| PingErr.

(** What [Execute] returns. *)
Inductive ExecResult : Type :=
| ExecOk (reply : string)          (* the request ran and returned no error *)
| ExecRequestErr                   (* the request ran and returned an error *)
| ErrOpenState.                    (* the breaker refused to run the request *)

Record Counts : Type := mkCounts {
  ConsecutiveFailures : nat;
}.

Record Settings : Type := mkSettings {
  Name : string;
  MaxRequests : nat;         (* 0: one trial request when half-open *)
  Interval : Z;              (* 0: the counts of a closed breaker are never cleared *)
  Timeout : Z;               (* the cool-down of an open breaker *)
  ReadyToTrip : Counts -> bool;
}.

Record CircuitBreaker : Type := mkBreaker {
  settings : Settings;
  state : State;
  counts : Counts;
  expiry : GoTime.Time;      (* when the open state ends *)
}.

(** Modelled from the spec: the circuit breaker [gobreaker.CircuitBreaker]
    is a dependency whose code is not part of the sources.  Section 4.1:
    closed (probing normally), open (all real probes suppressed until the
    cool-down has elapsed), half-open (one trial probe; success closes the
    breaker, failure opens it again); closed becomes open when the
    consecutive failures reach the threshold. *)
Definition NewCircuitBreaker (st : Settings) : CircuitBreaker :=
  mkBreaker st StateClosed (mkCounts 0) 0.

(** Modelled from the spec: the state at time [now]; an open breaker
    becomes half-open once the cool-down is over. *)
Definition currentState (cb : CircuitBreaker) (now : GoTime.Time) : CircuitBreaker :=
  match state cb with
  | StateOpen =>
      if expiry cb <? now
      then mkBreaker (settings cb) StateHalfOpen (mkCounts 0) 0
      else cb
  | _ => cb
  end.

(** Modelled from the spec: [Execute] runs the request unless the breaker
    is open, and counts its outcome.  The first component tells whether the
    request was run. *)
Definition Execute (cb : CircuitBreaker) (now : GoTime.Time) (req : PingResult)
  : bool * ExecResult * CircuitBreaker :=
  let cb := currentState cb now in
  match state cb with
  | StateOpen => (false, ErrOpenState, cb)
  | StateClosed =>
      match req with
      | PingOk reply =>
          (true, ExecOk reply, mkBreaker (settings cb) StateClosed (mkCounts 0) (expiry cb))
      | PingErr =>
          let c := mkCounts (S (ConsecutiveFailures (counts cb))) in
          if ReadyToTrip (settings cb) c
          then (true, ExecRequestErr,
                mkBreaker (settings cb) StateOpen (mkCounts 0)
                          (GoTime.Add now (Timeout (settings cb))))
          else (true, ExecRequestErr, mkBreaker (settings cb) StateClosed c (expiry cb))
      end
  | StateHalfOpen =>
      match req with
      | PingOk reply =>
          (true, ExecOk reply, mkBreaker (settings cb) StateClosed (mkCounts 0) 0)
      | PingErr =>
          (true, ExecRequestErr,
           mkBreaker (settings cb) StateOpen (mkCounts 0)
                     (GoTime.Add now (Timeout (settings cb))))
      end
  end.

End gobreaker.

(** ** infrastructure/redis/healthcheck.go: the health checker *)

Module HealthChecker.
Import gobreaker.

Section Methods.
(** The breaker, as the checker uses it: a value made from settings and
    an [Execute]. *)
Variable Breaker : Type.
Variable newBreaker : Settings -> Breaker.
Variable execute : Breaker -> GoTime.Time -> PingResult -> bool * ExecResult * Breaker.

(** [HealthChecker] monitors Redis connection health.  [pings] counts the
    PING commands sent to the client. *)
Record t : Type := mkChecker {
  circuitBreaker : Breaker;
  status : bool;
  checkInterval : Z;
  pings : nat;
}.

(** The settings [NewHealthChecker] builds. *)
Definition breakerSettings : Settings :=
  mkSettings "redis-circuit-breaker" 0 0 (30 * GoTime.Second)
             (fun counts => 3 <=? ConsecutiveFailures counts)%nat.

(** [NewHealthChecker] creates a new Redis health checker. *)
Definition NewHealthChecker (checkInterval : Z) : t :=
  mkChecker (newBreaker breakerSettings) false checkInterval 0.

(** [IsHealthy] returns current Redis connection health status. *)
Definition IsHealthy (h : t) : bool := status h.

(** [Check] performs a health check and returns the result.  [now] is the
    time of the call and [ping] the answer of the PING command if it is
    sent. *)
Definition Check (h : t) (now : GoTime.Time) (ping : PingResult) : bool * t :=
  let '(ran, result, cb) := execute (circuitBreaker h) now ping in
  let isHealthy :=
    match result with
    | ExecOk reply => String.eqb reply "PONG"
    | _ => false
    end in
  (isHealthy,
   mkChecker cb isHealthy (checkInterval h) (if ran then S (pings h) else pings h)).

(** [startPeriodicChecks]: a [Check] per tick of the ticker; [probes] gives
    the time of each tick and the answer of its PING.  The results of the
    checks are collected. *)
Fixpoint startPeriodicChecks (h : t) (probes : list (GoTime.Time * PingResult))
  : list bool * t :=
  match probes with
  | [] => ([], h)
  | (now, ping) :: rest =>
      let '(b, h1) := Check h now ping in
      let '(bs, h2) := startPeriodicChecks h1 rest in
      (b :: bs, h2)
  end.

End Methods.
End HealthChecker.

(** ** auth/middleware.go: the request context and the middlewares *)

Module Middleware.

(** Context keys *)
Inductive contextKey : Type := UserIDKey | TokenKey | CompanyIDKey.

Definition contextKey_eqb (a b : contextKey) : bool :=
  match a, b with
  | UserIDKey, UserIDKey | TokenKey, TokenKey | CompanyIDKey, CompanyIDKey => true
  | _, _ => false
  end.

(** The values a context holds under these keys, by their dynamic type. *)
Inductive ctxValue : Type :=
| StringValue (s : string)
| TokenValue (token : ptr)
| OtherValue.

(** [context.Context], as far as these keys go: the chain of
    [context.WithValue] calls, the latest first. *)
Definition Context : Type := list (contextKey * ctxValue).

(** [context.WithValue(ctx, key, val)] *)
Definition WithValue (ctx : Context) (key : contextKey) (val : ctxValue) : Context :=
  (key, val) :: ctx.

(** [ctx.Value(key)]: the value of the latest [WithValue] for the key. *)
Fixpoint Value (ctx : Context) (key : contextKey) : option ctxValue :=
  match ctx with
  | [] => None
  | (k, v) :: parent => if contextKey_eqb k key then Some v else Value parent key
  end.

(** [GetUserID] extracts user ID from context. *)
Definition GetUserID (ctx : Context) : string :=
  match Value ctx UserIDKey with
  | Some (StringValue userID) => userID
  | _ => ""
  end.

(** [GetToken] extracts token from context; [None] is nil. *)
Definition GetToken (ctx : Context) : option ptr :=
  match Value ctx TokenKey with
  | Some (TokenValue token) => Some token
  | _ => None
  end.

(** [GetCompanyID] extracts company ID from context; [None] is the error
    "company ID not found in context". *)
Definition GetCompanyID (ctx : Context) : option string :=
  match Value ctx CompanyIDKey with
  | Some (StringValue companyID) =>
      if String.eqb companyID "" then None else Some companyID
  | _ => None
  end.

(** What a middleware does with a request: it answers with [http.Error],
    or it calls [next.ServeHTTP] with the request carrying a context. *)
Inductive Outcome : Type :=
| Respond (msg : string) (status : Z)
| Next (ctx : Context).

(** [UserMiddleware] sets user ID in the request context.  [header] is
    [r.Header.Get("X-User-ID")] and [ctx] is [r.Context()]. *)
Definition UserMiddleware (header : string) (ctx : Context) : Outcome :=
  let userID := header in
  if String.eqb userID "" then Respond "Unauthorized" 401
  else Next (WithValue ctx UserIDKey (StringValue userID)).

Section Methods.
Variable env : Env.
Variable config : OAuthConfig.
Variable tokenStore : TokenStore.

(** [QBAuthMiddleware] ensures the request has a valid QuickBooks token. *)
Definition QBAuthMiddleware (ctx : Context) : M Outcome :=
  (* Get user ID from context *)
  let userID := GetUserID ctx in
  if String.eqb userID "" then ret (Respond "Unauthorized" 401)
  else
    (* Get and validate token *)
    let* r := Service.GetValidToken env config tokenStore userID in
    match r with
    | Err _ => ret (Respond "QuickBooks authentication required" 401)
    | Ok token =>
        (* Ensure company ID exists *)
        let* realmID := getf token RealmID in
        if String.eqb realmID "" then
          ret (Respond "QuickBooks company not connected" 401)
        else
          (* Set token and company ID in context *)
          let ctx1 := WithValue ctx TokenKey (TokenValue token) in
          let* realmID := getf token RealmID in
          ret (Next (WithValue ctx1 CompanyIDKey (StringValue realmID)))
    end.

(** The middlewares of the API routes, in the order [SetupRoutes] adds
    them to [apiRouter]: [UserMiddleware], then [QBAuthMiddleware]. *)
Definition apiMiddlewares (header : string) (ctx : Context) : M Outcome :=
  match UserMiddleware header ctx with
  | Respond msg status => ret (Respond msg status)
  | Next ctx1 => QBAuthMiddleware ctx1
  end.

End Methods.
End Middleware.

(** ** auth/handlers.go: the other handlers *)

Module Handlers.

(** What is written to the [http.ResponseWriter]. *)
Inductive Response : Type :=
| Error (msg : string) (status : Z)              (* http.Error *)
| Redirect (url : string) (status : Z)           (* http.Redirect *)
| Success                                        (* 200, status success *)
| NotConnected                                   (* 200, connected false *)
| Connected (realm_id : string) (expires_at : GoTime.Time).  (* 200, connected true *)

Section Methods.
Variable env : Env.
Variable config : OAuthConfig.
Variable tokenStore : TokenStore.
(** [url.Parse(u)], then [Query()], a [Set] per pair, [Encode()] into
    [RawQuery], and [String()]; [None] when [u] does not parse: the
    error of [url.Parse] is dropped and the nil URL is dereferenced. *)
Variable url_SetQuery : string -> list (string * string) -> option string.



(** [DisconnectHandler] revokes QuickBooks tokens. *)
Definition DisconnectHandler (ctx : Middleware.Context) : M Response :=
  let userID := Middleware.GetUserID ctx in
  if String.eqb userID "" then ret (Error "Unauthorized" 401)
  else
    (* Disconnect from QuickBooks *)
    let* err := Service.Disconnect env config tokenStore userID in
    match err with
    | Some _ => ret (Error "Failed to disconnect" 500)
    | None => ret Success
    end.

(** [StatusHandler] returns the connection status. *)
Definition StatusHandler (ctx : Middleware.Context) : M Response :=
  let userID := Middleware.GetUserID ctx in
  if String.eqb userID "" then ret (Error "Unauthorized" 401)
  else
    (* Check if user has a token *)
    let* r := GetToken tokenStore userID in
    match r with
    | Err _ => ret NotConnected
    | Ok token =>
        let* realmID := getf token RealmID in
        let* expiresAt := getf token ExpiresAt in
        ret (Connected realmID expiresAt)
    end.

End Methods.
End Handlers.

(** ** qbclient/client.go: the QuickBooks API client *)

Module qbclient.

(** [Client]: its [authService] is the service over the store of the
    methods below, its [httpClient] the upstream of the oracle. *)
Record Client : Type := mkClient {
  baseURL : string;
  clientID : string;
  clientSecret : string;
  userID : string;
  realmID : string;
}.


(** [WithUser] sets the user context for the client. *)
Definition WithUser (c : Client) (userID : string) : Client :=
  mkClient (baseURL c) (clientID c) (clientSecret c) userID (realmID c).

(** [WithRealmID] sets the QuickBooks company ID for the client. *)
Definition WithRealmID (c : Client) (realmID : string) : Client :=
  mkClient (baseURL c) (clientID c) (clientSecret c) (userID c) realmID.




Section Methods.
Variable env : Env.
Variable config : OAuthConfig.
Variable tokenStore : TokenStore.
(** [json.Unmarshal] of an error body into the fault structure: the
    (code, message) pairs of [Fault.Error], [None] when it fails. *)
Variable json_Fault : string -> option (list (string * string)).


End Methods.
End qbclient.

(** ** Notions used in the statements *)

(** The value a GET for [userID] yields in [w]: the command succeeds, the
    key is there and its value decodes. *)
Definition redisValue (env : Env) (prefix userID : string) (w : World)
  : option OAuthToken :=
  if redisUp env (step w) then
    match redisDB w !! RedisTokenStore.key prefix userID with
    | Some (data, _) => json_Unmarshal env data
    | None => None
    end
  else None.

(** The value the durable tier yields to the resilient store's read for
    [userID] in [w]: the health check trusts the tier and the read that
    follows succeeds. *)
Definition durableValue (env : Env) (prefix userID : string) (w : World)
  : option OAuthToken :=
  if healthCheck env (step w)
  then redisValue env prefix userID (set_step w (S (step w)))
  else None.

(** No nil pointer in the cache: every cached pointer is allocated. *)
Definition cache_wf (w : World) : Prop :=
  forall u p, localCache w !! u = Some p -> is_Some (heap w !! p).

(** The events by which the durable writes of a pass are audited. *)
Definition isAudit (e : Event) : bool :=
  match e with
  | EvRedisSaveToken _ _ | EvLog _ _ => true
  | _ => false
  end.

(** Whether an event is a command sent to Redis. *)
Definition isRedisCmd (e : Event) : bool :=
  match e with
  | EvRedisSaveToken _ _ | EvRedisSet _ _ _ | EvRedisGet _ | EvRedisDel _ => true
  | _ => false
  end.

(** What a replication pass leaves in the audit for the entries [l] with
    the outcomes [errs], the oldest first: each save, followed by its log
    line when it failed. *)
Fixpoint passAudit (l : list (string * ptr)) (errs : list (option error))
  : list Event :=
  match l, errs with
  | (id, _) :: l', err :: errs' =>
      EvRedisSaveToken id err ::
      match err with
      | Some e => [EvLog ("Replication error for user " +:+ id) e]
      | None => []
      end ++ passAudit l' errs'
  | _, _ => []
  end.

(** The token [executeTokenRequest] builds from the decoded response: the
    realm id of the token URL's query, when there is one, replaces the
    response's. *)
Definition withQueryRealm (env : Env) (config : OAuthConfig) (resp : OAuthToken)
  : OAuthToken :=
  let realmID := url_Query_Get env (TokenURL config) "realm_id" in
  if String.eqb realmID "" then resp else set_RealmID resp realmID.

(** The form of a refresh-token grant. *)
Definition refreshForm (refreshToken : string) : list (string * string) :=
  [("grant_type", "refresh_token"); ("refresh_token", refreshToken)].

(** Whether an event is a request sent to the upstream. *)
Definition isUpstreamRequest (e : Event) : bool :=
  match e with
  | EvTokenRequest _ | EvRevokeRequest _ _ => true
  | _ => false
  end.

(** Whether the upstream answered the request with status 200. *)
Definition httpOK (o : HttpOutcome) : bool :=
  match o with
  | HttpStatus code _ => code =? 200
  | _ => false
  end.

(** The revocation request that reaches the upstream for [token] when the
    exchange comes to [o]: none if the request could not be built. *)
Definition revokeEvents (config : OAuthConfig) (o : HttpOutcome) (token : string)
  : list Event :=
  match o with
  | HttpBuildErr => []
  | _ => [EvRevokeRequest (APIBaseURL config +:+ "/oauth2/v1/tokens/revoke") token]
  end.

(** The revocation request for [token]. *)
Definition revokeRequest (config : OAuthConfig) (token : string) : Event :=
  EvRevokeRequest (APIBaseURL config +:+ "/oauth2/v1/tokens/revoke") token.

(** The health checker over the circuit breaker above. *)
Module RedisHealth.
Import gobreaker.

Definition checker : Type := HealthChecker.t CircuitBreaker.

Definition NewHealthChecker : Z -> checker :=
  HealthChecker.NewHealthChecker CircuitBreaker NewCircuitBreaker.

Definition IsHealthy : checker -> bool :=
  HealthChecker.IsHealthy CircuitBreaker.

Definition Check : checker -> GoTime.Time -> PingResult -> bool * checker :=
  HealthChecker.Check CircuitBreaker Execute.

Definition startPeriodicChecks
  : checker -> list (GoTime.Time * PingResult) -> list bool * checker :=
  HealthChecker.startPeriodicChecks CircuitBreaker Execute.

Definition breaker (h : checker) : CircuitBreaker :=
  HealthChecker.circuitBreaker CircuitBreaker h.

Definition pings (h : checker) : nat := HealthChecker.pings CircuitBreaker h.

(** The cool-down of the breaker. *)
Definition coolDown : Z := 30 * GoTime.Second.

End RedisHealth.

(** ** Concrete runs *)

Module Examples.

Definition newRecord : OAuthToken :=
  mkToken "access-new" "refresh-new" "bearer" 3600 3600000000000 "9991".
Definition oldRecord : OAuthToken :=
  mkToken "access-old" "refresh-old" "bearer" 3600 0 "9991".

(** A JSON codec on the two records. *)
Definition marshal (t : OAuthToken) : option string :=
  if String.eqb (AccessToken t) "access-new" then Some "new" else Some "old".
Definition unmarshal (s : string) : option OAuthToken :=
  if String.eqb s "new" then Some newRecord
  else if String.eqb s "old" then Some oldRecord
  else None.

(** The durable tier is trusted throughout, but the command sent at step 2
    (the SET of the save below) fails. *)
Definition envSetFails : Env :=
  mkEnv (fun _ => 0) (fun _ => true) (fun i => negb (Nat.eqb i 2))
        (fun _ => HttpTransportErr) marshal unmarshal unmarshal
        (fun _ m => map_to_list m) (fun _ _ => "").

(** The new record is allocated at 1; Redis holds the old record of u1. *)
Definition worldOldInRedis : World :=
  mkWorld {[ 1%positive := newRecord ]} ∅
          {[ "qb:token:u1" := ("old", 0) ]} 0 [].

(** [SaveToken("u1", &newRecord)] then [GetToken("u1")] on the resilient
    store: the error of the save, the events of the save, and the record
    the get returns. *)
Definition saveThenGet (env : Env) (w : World)
  : option (option error * list Event * option OAuthToken) :=
  match FallbackTokenStore.SaveToken env "qb" "u1" 1%positive w with
  | Some (err, w1) =>
      match FallbackTokenStore.GetToken env "qb" "u1" w1 with
      | Some (Ok q, w2) => Some (err, trace w1, heap w2 !! q)
      | Some (Err _, _) => Some (err, trace w1, None)
      | None => None
      end
  | None => None
  end.

Definition config : OAuthConfig :=
  mkConfig "client" "secret" "https://app/callback" ["accounting"]
           "https://auth/authorize" "https://auth/token" "https://api".

(** The upstream's refresh response: a new access token that lives for a
    minute, no refresh token and no realm id. *)
Definition shortLived : OAuthToken :=
  mkToken "access-2" "" "bearer" 60 0 "".

(** The durable tier is not trusted; the clock stands at 1000 s; the
    upstream answers every request with [shortLived]. *)
Definition envRefresh : Env :=
  mkEnv (fun _ => 1000 * GoTime.Second) (fun _ => false) (fun _ => false)
        (fun _ => HttpStatus 200 "short") marshal unmarshal
        (fun s => if String.eqb s "short" then Some shortLived else None)
        (fun _ m => map_to_list m) (fun _ _ => "").

(** The cache holds the old record of u1, which expired at time 0. *)
Definition worldCached : World :=
  mkWorld {[ 1%positive := oldRecord ]} {[ "u1" := 1%positive ]} ∅ 0 [].

(** The world after the resilient store's [GetToken("u1")] in
    [worldCached] under [envRefresh]. *)
Definition worldLoaded : World :=
  mkWorld {[ 1%positive := oldRecord ]} {[ "u1" := 1%positive ]} ∅ 1
          [EvRUnlock; EvRLock].

(** [GetValidToken("u1")] on the resilient store: the expiry of the record
    it returns and the reading of the clock at the return. *)
Definition getValidTokenRun (env : Env) (w : World)
  : option (GoTime.Time * GoTime.Time) :=
  match Service.GetValidToken env config (FallbackTokenStore.store env "qb") "u1" w with
  | Some (Ok q, w') =>
      match heap w' !! q with
      | Some t => Some (ExpiresAt t, clock env (step w'))
      | None => None
      end
  | _ => None
  end.

(** The durable tier is not trusted and the upstream rejects every
    request with status 400. *)
Definition envRevokeFails : Env :=
  mkEnv (fun _ => 0) (fun _ => false) (fun _ => false)
        (fun _ => HttpStatus 400 "invalid_request") marshal unmarshal unmarshal
        (fun _ m => map_to_list m) (fun _ _ => "").

(** The upstream's answer to the code exchange: a token without realm id. *)
Definition exchanged : OAuthToken :=
  mkToken "access-1" "refresh-1" "bearer" 3600 0 "".

(** A codec whose documents show the realm id. *)
Definition marshalRealm (t : OAuthToken) : option string :=
  Some ("realm_id=" +:+ RealmID t).

(** The durable tier is trusted and up; the upstream answers the exchange
    with [exchanged]. *)
Definition envExchange : Env :=
  mkEnv (fun _ => 0) (fun _ => true) (fun _ => true)
        (fun _ => HttpStatus 200 "grant") marshalRealm unmarshal
        (fun s => if String.eqb s "grant" then Some exchanged else None)
        (fun _ m => map_to_list m) (fun _ _ => "").


Definition emptyWorld : World := mkWorld ∅ ∅ ∅ 0 [].


(** The durable tier is trusted; the first SET of a pass fails and the
    later ones succeed. *)
Definition envReplicate : Env :=
  mkEnv (fun _ => 0) (fun _ => true) (fun i => negb (Nat.eqb i 3))
        (fun _ => HttpTransportErr) marshal unmarshal unmarshal
        (fun _ m => map_to_list m) (fun _ _ => "").

(** Two users were cached during an outage. *)
Definition worldTwoCached : World :=
  mkWorld {[ 1%positive := oldRecord; 2%positive := newRecord ]}
          {[ "u1" := 1%positive; "u2" := 2%positive ]} ∅ 0 [].

(** The durable tier is trusted, Redis answers every command and the
    upstream answers every request with status 200 and [exchanged]. *)
Definition envAllUp : Env :=
  mkEnv (fun _ => 0) (fun _ => true) (fun _ => true)
        (fun _ => HttpStatus 200 "grant") marshal unmarshal
        (fun s => if String.eqb s "grant" then Some exchanged else None)
        (fun _ m => map_to_list m) (fun _ _ => "").

(** The durable tier is not trusted at step 0 and trusted afterwards. *)
Definition envRecovering : Env :=
  mkEnv (fun _ => 0) (fun i => negb (Nat.eqb i 0)) (fun _ => true)
        (fun _ => HttpTransportErr) marshal unmarshal unmarshal
        (fun _ m => map_to_list m) (fun _ _ => "").

(** The world after the resilient store's [GetToken("u1")] in
    [worldCached] under [envAllUp]: Redis has no entry and the cache
    serves the record. *)
Definition worldLoadedUp : World :=
  mkWorld {[ 1%positive := oldRecord ]} {[ "u1" := 1%positive ]} ∅ 2
          [EvRUnlock; EvRLock;
           EvLog "Warning: Failed to get token from Redis" ErrRedisNil;
           EvRedisGet "qb:token:u1"].

(** The context of a request of u1, as [UserMiddleware] leaves it. *)
Definition ctxU1 : Middleware.Context :=
  [(Middleware.UserIDKey, Middleware.StringValue "u1")].

(** The cache holds the new record of u1, which expires in an hour. *)
Definition worldFreshCached : World :=
  mkWorld {[ 1%positive := newRecord ]} {[ "u1" := 1%positive ]} ∅ 0 [].

(** The world after the resilient store's [GetToken("u1")] in
    [worldFreshCached] when the durable tier is not trusted. *)
Definition worldFreshLoaded : World :=
  mkWorld {[ 1%positive := newRecord ]} {[ "u1" := 1%positive ]} ∅ 1
          [EvRUnlock; EvRLock].


(** Redis answers every command but the one sent at step 4; the upstream
    answers every request with status 200 and [exchanged]. *)
Definition envSaveFails : Env :=
  mkEnv (fun _ => 0) (fun _ => true) (fun i => negb (Nat.eqb i 4))
        (fun _ => HttpStatus 200 "grant") marshal unmarshal
        (fun s => if String.eqb s "grant" then Some exchanged else None)
        (fun _ m => map_to_list m) (fun _ _ => "").

End Examples.

(** ** Lemmas on the monad and the heap *)

Lemma bind_Some {A B} (c : M A) (k : A -> M B) (w w1 : World) (a : A) :
  c w = Some (a, w1) -> bind c k w = k a w1.
Proof. intros H. unfold bind. rewrite H. reflexivity. Qed.

Lemma load_Some (p : ptr) (t : OAuthToken) (w : World) :
  heap w !! p = Some t -> load p w = Some (t, w).
Proof. intros H. unfold load. rewrite H. reflexivity. Qed.

Lemma getf_Some {A} (f : OAuthToken -> A) (p : ptr) (t : OAuthToken) (w : World) :
  heap w !! p = Some t -> getf p f w = Some (f t, w).
Proof. intros H. unfold getf, bind, ret. rewrite (load_Some _ _ _ H). reflexivity. Qed.

Lemma setf_Some (upd : OAuthToken -> OAuthToken) (p : ptr) (t : OAuthToken) (w : World) :
  heap w !! p = Some t ->
  setf p upd w = Some (tt, set_heap w (<[p := upd t]> (heap w))).
Proof.
  intros H. unfold setf, bind, store. rewrite (load_Some _ _ _ H), H. reflexivity.
Qed.

Lemma alloc_fresh (t : OAuthToken) (w : World) :
  heap w !! fresh (dom (heap w)) = None.
Proof. apply not_elem_of_dom, is_fresh. Qed.

(** ** The Redis-backed store *)

Lemma redis_SaveToken_spec (env : Env) (prefix u : string) (p : ptr)
    (t : OAuthToken) (w : World) :
  heap w !! p = Some t ->
  exists err w' l,
    RedisTokenStore.SaveToken env prefix u p w = Some (err, w') /\
    heap w' = heap w /\ localCache w' = localCache w /\
    trace w' = EvRedisSaveToken u err :: l ++ trace w /\
    List.filter isAudit l = [].
Proof.
  intros H. unfold RedisTokenStore.SaveToken.
  rewrite (bind_Some _ _ _ _ _ (load_Some _ _ _ H)).
  destruct (json_Marshal env t) as [data|].
  - unfold bind, now, tick, emit, ret; simpl.
    destruct (redisUp env (S (step w))); simpl.
    + eexists _, _, [_]. repeat split; reflexivity.
    + eexists _, _, [_]. repeat split; reflexivity.
  - unfold bind, emit, ret; simpl.
    eexists _, _, []. repeat split; reflexivity.
Qed.

(** ** The resilient store *)

Lemma fallback_SaveToken_spec (env : Env) (prefix u : string) (p : ptr)
    (t : OAuthToken) (w : World) :
  heap w !! p = Some t ->
  exists w' l,
    FallbackTokenStore.SaveToken env prefix u p w = Some (None, w') /\
    heap w' = heap w /\
    localCache w' = <[u := p]> (localCache w) /\
    trace w' = l ++ EvUnlock :: EvLock :: trace w /\
    (if healthCheck env (step w)
     then exists err, In (EvRedisSaveToken u err) l
     else l = [] /\ redisDB w' = redisDB w).
Proof.
  intros H. unfold FallbackTokenStore.SaveToken, FallbackTokenStore.healthy,
    FallbackTokenStore.cachePut.
  unfold bind at 1 2 3 4 5, emit, tick, ret; simpl.
  destruct (healthCheck env (step w)); simpl.
  - unfold bind.
    match goal with |- context [RedisTokenStore.SaveToken env prefix u p ?w0] =>
      destruct (redis_SaveToken_spec env prefix u p t w0 H)
        as (err & w' & l & Hs & Hh & Hc & Ht & _)
    end.
    rewrite Hs. simpl in Hh, Hc, Ht.
    destruct err as [e|]; simpl.
    + eexists _, (_ :: EvRedisSaveToken u (Some e) :: l).
      split; [reflexivity|]. simpl. rewrite Hh, Hc, Ht.
      repeat split; try reflexivity. eexists. right. left. reflexivity.
    + eexists _, (EvRedisSaveToken u None :: l).
      split; [reflexivity|]. simpl. rewrite Hh, Hc, Ht.
      repeat split; try reflexivity. eexists. left. reflexivity.
  - eexists _, []. simpl. repeat split; reflexivity.
Qed.

Lemma redis_GetToken_spec (env : Env) (prefix u : string) (w : World) :
  exists r w',
    RedisTokenStore.GetToken env prefix u w = Some (r, w') /\
    trace w' = EvRedisGet (RedisTokenStore.key prefix u) :: trace w /\
    redisDB w' = redisDB w /\ localCache w' = localCache w /\
    step w' = S (step w) /\
    match redisValue env prefix u w with
    | Some t => exists p, r = Ok p /\ heap w !! p = None /\
                          heap w' = <[p := t]> (heap w)
    | None => (exists e, r = Err e) /\ heap w' = heap w
    end.
Proof.
  unfold RedisTokenStore.GetToken, redisValue, bind, emit, tick, ret, alloc; simpl.
  destruct (redisUp env (step w)); simpl.
  - destruct (redisDB w !! RedisTokenStore.key prefix u) as [[data ttl]|]; simpl.
    + destruct (json_Unmarshal env data) as [t|]; simpl.
      * do 2 eexists. repeat split; try reflexivity.
        eexists. repeat split; try reflexivity. apply (alloc_fresh t).
      * do 2 eexists. repeat split; try reflexivity. eexists; reflexivity.
    + do 2 eexists. repeat split; try reflexivity. eexists; reflexivity.
  - do 2 eexists. repeat split; try reflexivity. eexists; reflexivity.
Qed.

Lemma fallback_GetToken_spec (env : Env) (prefix u : string) (w : World) :
  exists r w' l,
    FallbackTokenStore.GetToken env prefix u w = Some (r, w') /\
    redisDB w' = redisDB w /\
    trace w' = l ++ trace w /\
    (if healthCheck env (step w)
     then last l = Some (EvRedisGet (RedisTokenStore.key prefix u))
     else l = [EvRUnlock; EvRLock]) /\
    match durableValue env prefix u w with
    | Some t => exists p, r = Ok p /\ heap w !! p = None /\
                          heap w' = <[p := t]> (heap w) /\
                          localCache w' = <[u := p]> (localCache w)
    | None => r = match localCache w !! u with
                  | Some p => Ok p
                  | None => Err ErrTokenNotFound
                  end /\
              localCache w' = localCache w /\ heap w' = heap w
    end.
Proof.
  unfold FallbackTokenStore.GetToken, FallbackTokenStore.healthy, durableValue,
    FallbackTokenStore.cachePut, FallbackTokenStore.cacheGet.
  unfold bind at 1, tick, ret; simpl.
  destruct (healthCheck env (step w)); simpl.
  - unfold bind at 1.
    destruct (redis_GetToken_spec env prefix u (set_step w (S (step w))))
      as (r & w1 & Hg & Ht & Hdb & Hc & _ & Hv).
    rewrite Hg. simpl in Ht, Hdb, Hc, Hv.
    destruct (redisValue env prefix u (set_step w (S (step w)))) as [t|].
    + destruct Hv as (p & -> & Hfresh & Hh).
      unfold bind, emit, ret; simpl.
      eexists _, _, [_; _; _]. split; [reflexivity|]. simpl.
      rewrite Hdb, Ht, Hc, Hh. repeat split; try reflexivity.
      exists p. repeat split; try reflexivity. exact Hfresh.
    + destruct Hv as ((e & ->) & Hh).
      unfold bind, emit, ret; simpl.
      destruct (localCache w1 !! u) as [p|] eqn:E; rewrite Hc in E; rewrite E;
        (eexists _, _, [_; _; _; _]; split; [reflexivity|]; simpl;
         rewrite Hdb, Ht, Hc, Hh; repeat split; reflexivity).
  - unfold bind, emit, ret; simpl.
    destruct (localCache w !! u) as [p|];
      (eexists _, _, _; split; [reflexivity|]; simpl; repeat split; reflexivity).
Qed.

(** C2.  Resilient store [GetToken], for every user and world.  When the
    health check reports trusted the durable read is the first thing done,
    and when it does not, Redis is not consulted.  When the durable read
    yields a value, a token object holding that value is returned and the
    cache entry of the user is overwritten with it.  Otherwise the cached
    entry is returned if there is one, and nothing changes.  An error is
    returned if and only if the durable path did not yield a value and the
    cache has no entry, and that error is the store's own not-found error:
    no error of the durable tier reaches the caller. *)
Theorem fallback_GetToken_durable_first (env : Env) (prefix u : string) (w : World) :
  exists r w' l,
    FallbackTokenStore.GetToken env prefix u w = Some (r, w') /\
    trace w' = l ++ trace w /\
    (if healthCheck env (step w)
     then last l = Some (EvRedisGet (RedisTokenStore.key prefix u))
     else List.filter isRedisCmd l = []) /\
    match durableValue env prefix u w with
    | Some t => exists p, r = Ok p /\ heap w' !! p = Some t /\
                          localCache w' = <[u := p]> (localCache w)
    | None => match localCache w !! u with
              | Some p => r = Ok p
              | None => r = Err ErrTokenNotFound
              end /\ localCache w' = localCache w /\ heap w' = heap w
    end /\
    (forall e, r = Err e <->
               e = ErrTokenNotFound /\
               durableValue env prefix u w = None /\ localCache w !! u = None).
Proof.
  destruct (fallback_GetToken_spec env prefix u w)
    as (r & w' & l & Hg & _ & Ht & Hl & Hv).
  exists r, w', l. split; [exact Hg|]. split; [exact Ht|]. split.
  { destruct (healthCheck env (step w)); [exact Hl|]. rewrite Hl. reflexivity. }
  destruct (durableValue env prefix u w) as [t|].
  - destruct Hv as (p & -> & _ & Hh & Hc). split.
    + exists p. rewrite Hh, lookup_insert_eq. auto.
    + intros e. split; [discriminate|]. intros (_ & H & _). discriminate.
  - destruct Hv as (-> & Hc & Hh).
    destruct (localCache w !! u) as [p|]; (split; [auto|]); intros e; split.
    + discriminate.
    + intros (_ & _ & H). discriminate.
    + intros [= <-]. auto.
    + intros (-> & _). reflexivity.
Qed.

(** C3, as stated, fails.  The durable tier is trusted but the SET of the
    save fails (the failure is logged and the save returns success); the
    durable read of the get that follows succeeds, and the get returns the
    old record Redis still holds, not the record just saved and cached. *)
Lemma fallback_save_then_get_stale :
  Examples.saveThenGet Examples.envSetFails Examples.worldOldInRedis =
    Some (None,
          [EvLog "Warning: Failed to save token to Redis"
                 (ErrWrap "failed to save token" ErrRedisSet);
           EvRedisSaveToken "u1" (Some (ErrWrap "failed to save token" ErrRedisSet));
           EvRedisSet "qb:token:u1" "new" 90000000000000;
           EvUnlock; EvLock],
          Some Examples.oldRecord) /\
  Examples.oldRecord <> Examples.newRecord.
Proof. split; [vm_compute; reflexivity | discriminate]. Qed.

(** C3, amended.  Resilient store [SaveToken] of an allocated token: the
    cache is written first, the durable write is attempted only when the
    health check reports trusted, and the save returns success
    unconditionally.  A get that follows never fails; it returns the saved
    record whenever its durable read yields no value (the tier is not
    trusted, or the read fails), and the durable tier's value when the
    durable read succeeds. *)
Theorem fallback_SaveToken_available (env : Env) (prefix u : string) (p : ptr)
    (R : OAuthToken) (w : World) :
  heap w !! p = Some R ->
  exists w1 l,
    FallbackTokenStore.SaveToken env prefix u p w = Some (None, w1) /\
    trace w1 = l ++ EvUnlock :: EvLock :: trace w /\
    localCache w1 = <[u := p]> (localCache w) /\
    heap w1 = heap w /\
    (if healthCheck env (step w)
     then exists err, In (EvRedisSaveToken u err) l
     else l = [] /\ redisDB w1 = redisDB w) /\
    exists r w2,
      FallbackTokenStore.GetToken env prefix u w1 = Some (r, w2) /\
      match durableValue env prefix u w1 with
      | None => r = Ok p /\ heap w2 !! p = Some R
      | Some t => exists q, r = Ok q /\ heap w2 !! q = Some t
      end.
Proof.
  intros H.
  destruct (fallback_SaveToken_spec env prefix u p R w H)
    as (w1 & l & Hs & Hh & Hc & Ht & Hl).
  exists w1, l. repeat (split; [assumption|]).
  destruct (fallback_GetToken_spec env prefix u w1)
    as (r & w2 & l2 & Hg & _ & _ & _ & Hv).
  exists r, w2. split; [exact Hg|].
  destruct (durableValue env prefix u w1) as [t|].
  - destruct Hv as (q & -> & _ & Hh2 & _). exists q.
    rewrite Hh2, lookup_insert_eq. auto.
  - destruct Hv as (-> & _ & Hh2).
    rewrite Hc, lookup_insert_eq, Hh2, Hh. auto.
Qed.

Lemma fallback_SaveToken_available_witness :
  exists w1 l,
    FallbackTokenStore.SaveToken Examples.envSetFails "qb" "u1" 1%positive
      Examples.worldOldInRedis = Some (None, w1) /\
    trace w1 = l ++ EvUnlock :: EvLock :: trace Examples.worldOldInRedis /\
    localCache w1 = <["u1" := 1%positive]> (localCache Examples.worldOldInRedis) /\
    heap w1 = heap Examples.worldOldInRedis /\
    (if healthCheck Examples.envSetFails (step Examples.worldOldInRedis)
     then exists err, In (EvRedisSaveToken "u1" err) l
     else l = [] /\ redisDB w1 = redisDB Examples.worldOldInRedis) /\
    exists r w2,
      FallbackTokenStore.GetToken Examples.envSetFails "qb" "u1" w1 = Some (r, w2) /\
      match durableValue Examples.envSetFails "qb" "u1" w1 with
      | None => r = Ok 1%positive /\ heap w2 !! 1%positive = Some Examples.newRecord
      | Some t => exists q, r = Ok q /\ heap w2 !! q = Some t
      end.
Proof.
  apply (fallback_SaveToken_available Examples.envSetFails "qb" "u1" 1%positive
           Examples.newRecord Examples.worldOldInRedis).
  vm_compute. reflexivity.
Defined.

(** ** The OAuth service *)

Lemma now_run (env : Env) (w : World) :
  now env w = Some (clock env (step w), set_step w (S (step w))).
Proof. reflexivity. Qed.

Lemma emit_run (e : Event) (w : World) :
  emit e w = Some (tt, set_trace w (e :: trace w)).
Proof. reflexivity. Qed.

Lemma tick_run (w : World) : tick w = Some (step w, set_step w (S (step w))).
Proof. reflexivity. Qed.

Lemma ret_run {A} (a : A) (w : World) : ret a w = Some (a, w).
Proof. reflexivity. Qed.

Lemma bind_assoc {A B C} (c : M A) (k1 : A -> M B) (k2 : B -> M C) (w : World) :
  bind (bind c k1) k2 w = bind c (fun a => bind (k1 a) k2) w.
Proof. unfold bind. destruct (c w) as [[a w']|]; reflexivity. Qed.

(** Heap lookups in a world built by the steps of a run. *)
Ltac heap_lookup :=
  cbn [heap set_heap set_step set_trace set_localCache set_redisDB];
  repeat first [ rewrite lookup_insert_eq
               | rewrite lookup_insert_ne by congruence ];
  first [ reflexivity | eassumption ].

(** One step of a run: the first computation of the outermost bind. *)
Ltac mstep :=
  erewrite bind_Some by
    first [ apply now_run
          | apply emit_run
          | apply ret_run
          | apply tick_run
          | apply getf_Some; heap_lookup
          | apply setf_Some; heap_lookup ].

Lemma withQueryRealm_fields (env : Env) (config : OAuthConfig) (resp : OAuthToken) :
  AccessToken (withQueryRealm env config resp) = AccessToken resp /\
  Models.RefreshToken (withQueryRealm env config resp) = Models.RefreshToken resp /\
  TokenType (withQueryRealm env config resp) = TokenType resp /\
  ExpiresIn (withQueryRealm env config resp) = ExpiresIn resp /\
  ExpiresAt (withQueryRealm env config resp) = ExpiresAt resp.
Proof.
  unfold withQueryRealm.
  destruct (String.eqb _ ""); repeat split; reflexivity.
Qed.

Lemma executeTokenRequest_ok (env : Env) (config : OAuthConfig)
    (data : list (string * string)) (body : string) (resp : OAuthToken) (w : World) :
  httpDo env (step w) = HttpStatus 200 body ->
  json_Decode env body = Some resp ->
  Service.executeTokenRequest env config data w =
    Some (Ok (fresh (dom (heap w))),
          mkWorld (<[fresh (dom (heap w)) := withQueryRealm env config resp]> (heap w))
                  (localCache w) (redisDB w) (S (step w))
                  (EvTokenRequest data :: trace w)).
Proof.
  intros Hh Hd. unfold Service.executeTokenRequest, bind, tick, emit, ret, alloc; simpl.
  rewrite Hh. simpl. rewrite Hd. reflexivity.
Qed.

Lemma refresh_success (env : Env) (config : OAuthConfig) (prefix u : string)
    (w w1 : World) (p : ptr) (old resp : OAuthToken) (body : string) :
  FallbackTokenStore.GetToken env prefix u w = Some (Ok p, w1) ->
  heap w1 !! p = Some old ->
  httpDo env (step w1) = HttpStatus 200 body ->
  json_Decode env body = Some resp ->
  exists q w' l,
    Service.RefreshToken env config (FallbackTokenStore.store env prefix) u w
      = Some (Ok q, w') /\
    heap w1 !! q = None /\
    heap w' = <[q := mkToken (AccessToken resp)
                        (if String.eqb (Models.RefreshToken resp) ""
                         then Models.RefreshToken old else Models.RefreshToken resp)
                        (TokenType resp) (ExpiresIn resp)
                        (GoTime.Add (clock env (S (step w1)))
                                    (GoTime.Seconds (ExpiresIn resp)))
                        (RealmID old)]> (heap w1) /\
    localCache w' = <[u := q]> (localCache w1) /\
    trace w' = l ++ EvTokenRequest (refreshForm (Models.RefreshToken old)) :: trace w1.
Proof.
  intros Hg Hp Hh Hd. unfold Service.RefreshToken.
  cbn [GetToken SaveToken FallbackTokenStore.store].
  rewrite (bind_Some _ _ _ _ _ Hg).
  mstep.
  rewrite (bind_Some _ _ _ _ _
             (executeTokenRequest_ok env config _ body resp w1 Hh Hd)).
  set (q := fresh (dom (heap w1))).
  assert (Hq : heap w1 !! q = None) by apply (alloc_fresh old).
  assert (Hpq : q <> p) by (intros ->; congruence).
  destruct (withQueryRealm_fields env config resp) as (Fa & Fr & Ft & Fi & Fe).
  do 6 mstep.
  cbn [step heap set_step set_heap Models.RefreshToken set_RealmID set_ExpiresAt].
  rewrite Fr.
  match goal with |- context [FallbackTokenStore.SaveToken env prefix u q] =>
    destruct (String.eqb (Models.RefreshToken resp) "")
  end.
  - rewrite bind_assoc. do 2 mstep.
    match goal with |- context [bind (FallbackTokenStore.SaveToken env prefix u q) _ ?W] =>
      destruct (fallback_SaveToken_spec env prefix u q _ W ltac:(heap_lookup))
        as (w' & l & Hs & Hh' & Hc' & Ht' & _)
    end.
    rewrite (bind_Some _ _ _ _ _ Hs).
    exists q, w', (l ++ [EvUnlock; EvLock]).
    split; [reflexivity|]. split; [exact Hq|].
    rewrite Hh', Hc', Ht'.
    cbn [step heap localCache trace set_step set_heap set_trace].
    rewrite !insert_insert_eq.
    unfold set_RefreshToken, set_RealmID, set_ExpiresAt; cbn.
    rewrite Fa, Ft, Fi, <- app_assoc. auto.
  - mstep.
    match goal with |- context [bind (FallbackTokenStore.SaveToken env prefix u q) _ ?W] =>
      destruct (fallback_SaveToken_spec env prefix u q _ W ltac:(heap_lookup))
        as (w' & l & Hs & Hh' & Hc' & Ht' & _)
    end.
    rewrite (bind_Some _ _ _ _ _ Hs).
    exists q, w', (l ++ [EvUnlock; EvLock]).
    split; [reflexivity|]. split; [exact Hq|].
    rewrite Hh', Hc', Ht'.
    cbn [step heap localCache trace set_step set_heap set_trace].
    rewrite !insert_insert_eq.
    unfold set_RefreshToken, set_RealmID, set_ExpiresAt; cbn.
    rewrite Fa, Fr, Ft, Fi, <- app_assoc. auto.
Qed.

Lemma fallback_GetToken_step (env : Env) (prefix u : string) (w w' : World)
    (r : result ptr) :
  FallbackTokenStore.GetToken env prefix u w = Some (r, w') ->
  (step w < step w')%nat.
Proof.
  unfold FallbackTokenStore.GetToken, FallbackTokenStore.healthy,
    RedisTokenStore.GetToken, FallbackTokenStore.cachePut,
    FallbackTokenStore.cacheGet, bind, emit, tick, ret, alloc; simpl.
  destruct (healthCheck env (step w)); simpl;
    [destruct (redisUp env (S (step w))); simpl;
     [destruct (redisDB w !! RedisTokenStore.key prefix u) as [[data ttl]|]; simpl;
      [destruct (json_Unmarshal env data); simpl|]|]|];
    try destruct (localCache w !! u); intros [= <- <-]; simpl; lia.
Qed.

Lemma fallback_GetToken_Ok_cached (env : Env) (prefix u : string) (w w' : World)
    (p : ptr) :
  FallbackTokenStore.GetToken env prefix u w = Some (Ok p, w') ->
  localCache w' !! u = Some p.
Proof.
  intros H.
  destruct (fallback_GetToken_spec env prefix u w)
    as (r & w1 & l & Hg & _ & _ & _ & Hv).
  rewrite H in Hg. injection Hg as <- <-.
  destruct (durableValue env prefix u w).
  - destruct Hv as (q & [= ->] & _ & _ & ->). apply lookup_insert_eq.
  - destruct Hv as (Hr & -> & _).
    destruct (localCache w !! u); congruence.
Qed.

Lemma fallback_GetToken_retrievable (env : Env) (prefix u : string) (w : World)
    (p : ptr) (t : OAuthToken) :
  localCache w !! u = Some p -> heap w !! p = Some t ->
  exists q w' t' l,
    FallbackTokenStore.GetToken env prefix u w = Some (Ok q, w') /\
    heap w' !! q = Some t' /\ trace w' = l ++ trace w.
Proof.
  intros Hc Hp.
  destruct (fallback_GetToken_spec env prefix u w)
    as (r & w1 & l & Hg & _ & Ht & _ & Hv).
  destruct (durableValue env prefix u w) as [t'|].
  - destruct Hv as (q & -> & _ & Hh & _). exists q, w1, t', l.
    rewrite Hh, lookup_insert_eq. auto.
  - destruct Hv as (-> & _ & Hh). rewrite Hc in Hg. exists p, w1, t, l.
    rewrite Hh. auto.
Qed.

Lemma Until_margin (n e : GoTime.Time) :
  (GoTime.Until n e <? 5 * GoTime.Minute) = (e - n <? 5 * GoTime.Minute).
Proof.
  unfold GoTime.Until, GoTime.Sub, GoTime.minDuration, GoTime.maxDuration,
    GoTime.Minute, GoTime.Second.
  destruct (Z.ltb_spec (e - n) (- 2 ^ 63)), (Z.ltb_spec (2 ^ 63 - 1) (e - n));
    destruct (Z.ltb_spec (e - n) (5 * (60 * 1000000000)));
    try reflexivity; try lia;
    match goal with |- (?a <? ?b) = _ => destruct (Z.ltb_spec a b) end;
    try reflexivity; lia.
Qed.

(** C6.  [RefreshToken] on the resilient store, for a user whose record
    [old] is loaded and an upstream that answers the grant with the decoded
    response [resp]: the refresh returns a token object that is the user's
    cache entry, and its refresh token is [old]'s when the response has
    none (empty) and the response's when it has one. *)
Theorem RefreshToken_keeps_or_rotates_refresh_token (env : Env) (config : OAuthConfig)
    (prefix u : string) (w w1 : World) (p : ptr) (old resp : OAuthToken)
    (body : string) :
  FallbackTokenStore.GetToken env prefix u w = Some (Ok p, w1) ->
  heap w1 !! p = Some old ->
  httpDo env (step w1) = HttpStatus 200 body ->
  json_Decode env body = Some resp ->
  exists q w' new,
    Service.RefreshToken env config (FallbackTokenStore.store env prefix) u w
      = Some (Ok q, w') /\
    localCache w' !! u = Some q /\
    heap w' !! q = Some new /\
    (Models.RefreshToken resp = "" ->
     Models.RefreshToken new = Models.RefreshToken old) /\
    (Models.RefreshToken resp <> "" ->
     Models.RefreshToken new = Models.RefreshToken resp).
Proof.
  intros Hg Hp Hh Hd.
  destruct (refresh_success env config prefix u w w1 p old resp body Hg Hp Hh Hd)
    as (q & w' & l & Hr & _ & Hheap & Hc & _).
  exists q, w'. eexists. split; [exact Hr|].
  rewrite Hc, Hheap, !lookup_insert_eq. repeat split; cbn.
  - intros ->. reflexivity.
  - intros Hne. destruct (String.eqb_spec (Models.RefreshToken resp) ""); congruence.
Qed.

Lemma RefreshToken_keeps_or_rotates_refresh_token_witness :
  exists q w' new,
    Service.RefreshToken Examples.envRefresh Examples.config
      (FallbackTokenStore.store Examples.envRefresh "qb") "u1" Examples.worldCached
      = Some (Ok q, w') /\
    localCache w' !! "u1" = Some q /\
    heap w' !! q = Some new /\
    (Models.RefreshToken Examples.shortLived = "" ->
     Models.RefreshToken new = Models.RefreshToken Examples.oldRecord) /\
    (Models.RefreshToken Examples.shortLived <> "" ->
     Models.RefreshToken new = Models.RefreshToken Examples.shortLived).
Proof.
  apply (RefreshToken_keeps_or_rotates_refresh_token Examples.envRefresh
           Examples.config "qb" "u1" Examples.worldCached Examples.worldLoaded
           1%positive Examples.oldRecord Examples.shortLived "short");
    vm_compute; reflexivity.
Defined.

(** C7.  [RefreshToken] on the resilient store, for a user whose record
    [old] is loaded and an upstream that answers the grant with the decoded
    response [resp], whatever realm id the response carries (none
    included): the token object returned and cached for the user has the
    realm id of [old]. *)
Theorem RefreshToken_preserves_RealmID (env : Env) (config : OAuthConfig)
    (prefix u : string) (w w1 : World) (p : ptr) (old resp : OAuthToken)
    (body : string) :
  FallbackTokenStore.GetToken env prefix u w = Some (Ok p, w1) ->
  heap w1 !! p = Some old ->
  httpDo env (step w1) = HttpStatus 200 body ->
  json_Decode env body = Some resp ->
  exists q w' new,
    Service.RefreshToken env config (FallbackTokenStore.store env prefix) u w
      = Some (Ok q, w') /\
    localCache w' !! u = Some q /\
    heap w' !! q = Some new /\
    RealmID new = RealmID old /\
    AccessToken new = AccessToken resp /\
    ExpiresAt new = GoTime.Add (clock env (S (step w1)))
                               (GoTime.Seconds (ExpiresIn resp)).
Proof.
  intros Hg Hp Hh Hd.
  destruct (refresh_success env config prefix u w w1 p old resp body Hg Hp Hh Hd)
    as (q & w' & l & Hr & _ & Hheap & Hc & _).
  exists q, w'. eexists. split; [exact Hr|].
  rewrite Hc, Hheap, !lookup_insert_eq. repeat split; reflexivity.
Qed.

Lemma RefreshToken_preserves_RealmID_witness :
  exists q w' new,
    Service.RefreshToken Examples.envRefresh Examples.config
      (FallbackTokenStore.store Examples.envRefresh "qb") "u1" Examples.worldCached
      = Some (Ok q, w') /\
    localCache w' !! "u1" = Some q /\
    heap w' !! q = Some new /\
    RealmID new = RealmID Examples.oldRecord /\
    AccessToken new = AccessToken Examples.shortLived /\
    ExpiresAt new = GoTime.Add (clock Examples.envRefresh 2%nat)
                               (GoTime.Seconds (ExpiresIn Examples.shortLived)).
Proof.
  apply (RefreshToken_preserves_RealmID Examples.envRefresh
           Examples.config "qb" "u1" Examples.worldCached Examples.worldLoaded
           1%positive Examples.oldRecord Examples.shortLived "short");
    vm_compute; reflexivity.
Defined.

(** C1, as stated, fails.  The cached record of u1 has expired, so
    [GetValidToken] refreshes it; the upstream grants a token that lives
    60 s; the record returned expires at 1060 s while the clock stands at
    1000 s: less than 5 minutes away. *)
Lemma GetValidToken_returns_short_lived :
  Examples.getValidTokenRun Examples.envRefresh Examples.worldCached =
    Some (1060 * GoTime.Second, 1000 * GoTime.Second) /\
  1060 * GoTime.Second - 1000 * GoTime.Second < 5 * GoTime.Minute.
Proof. split; [vm_compute; reflexivity | vm_compute; reflexivity]. Qed.

(** C1, amended.  [GetValidToken] on the resilient store, for a user whose
    record [t] is loaded.  If [t] expires 5 minutes or more from now, the
    loaded record is returned as it is.  If it expires less than 5 minutes
    from now, [RefreshToken] is performed before returning and its result
    is what is returned: the loaded record is never returned then; and when
    the upstream answers the grant, the record returned is the refreshed
    one, cached for the user, whose expiry is the time of the refresh plus
    the lifetime the upstream granted. *)
Theorem GetValidToken_refreshes_within_margin (env : Env) (config : OAuthConfig)
    (prefix u : string) (w w1 : World) (p : ptr) (t : OAuthToken) :
  FallbackTokenStore.GetToken env prefix u w = Some (Ok p, w1) ->
  heap w1 !! p = Some t ->
  let store := FallbackTokenStore.store env prefix in
  let n := clock env (step w1) in
  let w2 := set_step w1 (S (step w1)) in
  (5 * GoTime.Minute <= ExpiresAt t - n ->
   Service.GetValidToken env config store u w = Some (Ok p, w2)) /\
  (ExpiresAt t - n < 5 * GoTime.Minute ->
   Service.GetValidToken env config store u w =
     match Service.RefreshToken env config store u w2 with
     | Some (Ok q, w') => Some (Ok q, w')
     | Some (Err e, w') => Some (Err (ErrWrap "failed to refresh token" e), w')
     | None => None
     end /\
   forall body resp,
     (forall i, httpDo env i = HttpStatus 200 body) ->
     json_Decode env body = Some resp ->
     exists q w' new l rt i,
       Service.GetValidToken env config store u w = Some (Ok q, w') /\
       q <> p /\
       localCache w' !! u = Some q /\
       heap w' !! q = Some new /\
       trace w' = l ++ trace w1 /\
       In (EvTokenRequest (refreshForm rt)) l /\
       (step w1 < i)%nat /\
       ExpiresAt new = GoTime.Add (clock env i) (GoTime.Seconds (ExpiresIn resp))).
Proof.
  intros Hg Hp store n w2.
  assert (Hrun : Service.GetValidToken env config store u w =
                 if ExpiresAt t - n <? 5 * GoTime.Minute
                 then match Service.RefreshToken env config store u w2 with
                      | Some (Ok q, w') => Some (Ok q, w')
                      | Some (Err e, w') =>
                          Some (Err (ErrWrap "failed to refresh token" e), w')
                      | None => None
                      end
                 else Some (Ok p, w2)).
  { unfold Service.GetValidToken. cbn [GetToken store FallbackTokenStore.store].
    rewrite (bind_Some _ _ _ _ _ Hg). do 2 mstep.
    rewrite Until_margin. fold n. fold w2.
    destruct (ExpiresAt t - n <? 5 * GoTime.Minute); [|reflexivity].
    unfold bind.
    destruct (Service.RefreshToken env config store u w2) as [[[q|e] w']|];
      reflexivity. }
  split.
  - intros Hm. rewrite Hrun.
    destruct (Z.ltb_spec (ExpiresAt t - n) (5 * GoTime.Minute)); [lia|reflexivity].
  - intros Hm. rewrite Hrun.
    destruct (Z.ltb_spec (ExpiresAt t - n) (5 * GoTime.Minute)); [|lia].
    split; [reflexivity|].
    intros body resp Hhttp Hdec.
    pose proof (fallback_GetToken_Ok_cached env prefix u w w1 p Hg) as Hc.
    assert (Hc2 : localCache w2 !! u = Some p) by exact Hc.
    assert (Hp2 : heap w2 !! p = Some t) by exact Hp.
    destruct (fallback_GetToken_retrievable env prefix u w2 p t Hc2 Hp2)
      as (p3 & w3 & old & l3 & Hg3 & Hp3 & Ht3).
    pose proof (fallback_GetToken_step env prefix u w2 w3 _ Hg3) as Hs3.
    destruct (refresh_success env config prefix u w2 w3 p3 old resp body
                Hg3 Hp3 (Hhttp _) Hdec)
      as (q & w' & l & Hr & Hq & Hheap & Hcache & Ht).
    fold store in Hr. rewrite Hr.
    exists q, w'. eexists.
    exists (l ++ EvTokenRequest (refreshForm (Models.RefreshToken old)) :: l3),
      (Models.RefreshToken old), (S (step w3)).
    split; [reflexivity|]. split.
    { intros ->.
      destruct (fallback_GetToken_spec env prefix u w2)
        as (r & w3' & l' & Hg' & _ & _ & _ & Hv).
      rewrite Hg3 in Hg'. injection Hg' as <- <-.
      destruct (durableValue env prefix u w2).
      - destruct Hv as (q & _ & _ & Hh & _). rewrite Hh in Hq.
        destruct (decide (q = p)) as [->|Hne].
        + rewrite lookup_insert_eq in Hq. discriminate.
        + rewrite lookup_insert_ne in Hq by exact Hne. cbn in Hq. congruence.
      - destruct Hv as (_ & _ & Hh). rewrite Hh in Hq. cbn in Hq. congruence. }
    rewrite Hcache, Hheap, !lookup_insert_eq, Ht, Ht3.
    repeat split; try reflexivity.
    + rewrite <- app_assoc. reflexivity.
    + apply in_or_app. right. left. reflexivity.
    + cbn in Hs3. lia.
Qed.

Lemma GetValidToken_refreshes_within_margin_witness :
  exists q w' new l rt i,
    Service.GetValidToken Examples.envRefresh Examples.config
      (FallbackTokenStore.store Examples.envRefresh "qb") "u1" Examples.worldCached
      = Some (Ok q, w') /\
    q <> 1%positive /\
    localCache w' !! "u1" = Some q /\
    heap w' !! q = Some new /\
    trace w' = l ++ trace Examples.worldLoaded /\
    In (EvTokenRequest (refreshForm rt)) l /\
    (step Examples.worldLoaded < i)%nat /\
    ExpiresAt new = GoTime.Add (clock Examples.envRefresh i)
                               (GoTime.Seconds (ExpiresIn Examples.shortLived)).
Proof.
  destruct (GetValidToken_refreshes_within_margin Examples.envRefresh
              Examples.config "qb" "u1" Examples.worldCached Examples.worldLoaded
              1%positive Examples.oldRecord
              ltac:(vm_compute; reflexivity) ltac:(vm_compute; reflexivity))
    as [_ Hrefresh].
  destruct (Hrefresh ltac:(vm_compute; reflexivity)) as [_ Hupstream].
  apply (Hupstream "short" Examples.shortLived).
  - intros i. reflexivity.
  - reflexivity.
Defined.

Lemma revokeToken_run (env : Env) (config : OAuthConfig) (token : string) (w : World) :
  exists r,
    Service.revokeToken env config token w =
      Some (r, mkWorld (heap w) (localCache w) (redisDB w) (S (step w))
                       (revokeEvents config (httpDo env (step w)) token ++ trace w)) /\
    (if httpOK (httpDo env (step w)) then r = None else exists e, r = Some e).
Proof.
  unfold Service.revokeToken, bind, tick, emit, ret; simpl.
  destruct (httpDo env (step w)) as [| |code body]; simpl.
  - eexists. split; [reflexivity|]. eexists; reflexivity.
  - eexists. split; [reflexivity|]. eexists; reflexivity.
  - destruct (code =? 200); simpl; eexists; (split; [reflexivity|]).
    + reflexivity.
    + eexists; reflexivity.
Qed.

Lemma fallback_DeleteToken_spec (env : Env) (prefix u : string) (w : World) :
  exists w' l,
    FallbackTokenStore.DeleteToken env prefix u w = Some (None, w') /\
    heap w' = heap w /\
    localCache w' = delete u (localCache w) /\
    trace w' = l ++ EvUnlock :: EvLock :: trace w.
Proof.
  unfold FallbackTokenStore.DeleteToken, FallbackTokenStore.healthy,
    FallbackTokenStore.cacheDelete, RedisTokenStore.DeleteToken,
    bind, emit, tick, ret; simpl.
  destruct (healthCheck env (step w)); simpl.
  - destruct (redisUp env (S (step w))); simpl.
    + eexists _, [_]. repeat split; reflexivity.
    + eexists _, [_; _]. repeat split; reflexivity.
  - eexists _, []. repeat split; reflexivity.
Qed.

(** C4.  [Disconnect] on the resilient store, for a user whose record [t]
    is loaded.  The access token is revoked first.  If that revocation
    fails, its error is returned, the refresh token is not revoked, and the
    record is still the user's cache entry and can be read again.  If it
    succeeds, the refresh token is revoked; if that fails, its error is
    returned and the record is likewise kept.  Only when both revocations
    have succeeded is the record deleted, after them, and the disconnect
    succeeds. *)
Theorem Disconnect_deletes_only_after_revocations (env : Env) (config : OAuthConfig)
    (prefix u : string) (w w1 : World) (p : ptr) (t : OAuthToken) :
  FallbackTokenStore.GetToken env prefix u w = Some (Ok p, w1) ->
  heap w1 !! p = Some t ->
  let store := FallbackTokenStore.store env prefix in
  let o1 := httpDo env (step w1) in
  let o2 := httpDo env (S (step w1)) in
  let kept (w' : World) :=
    localCache w' !! u = Some p /\ heap w' !! p = Some t /\
    redisDB w' = redisDB w1 /\
    exists q w'' t', FallbackTokenStore.GetToken env prefix u w' = Some (Ok q, w'') /\
                     heap w'' !! q = Some t' in
  exists r w',
    Service.Disconnect env config store u w = Some (r, w') /\
    if httpOK o1 then
      exists w2, Service.revokeToken env config (AccessToken t) w1 = Some (None, w2) /\
      if httpOK o2 then
        r = None /\ localCache w' = delete u (localCache w1) /\
        exists l, trace w' = l ++ revokeRequest config (Models.RefreshToken t)
                               :: revokeRequest config (AccessToken t) :: trace w1
      else
        Service.revokeToken env config (Models.RefreshToken t) w2 = Some (r, w') /\
        (exists e, r = Some e) /\ kept w' /\
        trace w' = revokeEvents config o2 (Models.RefreshToken t)
                     ++ revokeRequest config (AccessToken t) :: trace w1
    else
      Service.revokeToken env config (AccessToken t) w1 = Some (r, w') /\
      (exists e, r = Some e) /\ kept w' /\
      trace w' = revokeEvents config o1 (AccessToken t) ++ trace w1.
Proof.
  intros Hg Hp store o1 o2 kept.
  pose proof (fallback_GetToken_Ok_cached env prefix u w w1 p Hg) as Hc.
  unfold Service.Disconnect. cbn [GetToken DeleteToken store FallbackTokenStore.store].
  rewrite (bind_Some _ _ _ _ _ Hg). mstep.
  destruct (revokeToken_run env config (AccessToken t) w1) as (r1 & Hr1 & Hok1).
  rewrite (bind_Some _ _ _ _ _ Hr1). fold o1 in Hok1, Hr1 |- *.
  destruct (httpOK o1) eqn:E1.
  - subst r1.
    assert (Ho1 : revokeEvents config o1 (AccessToken t) = [revokeRequest config (AccessToken t)]).
    { destruct o1; try discriminate; reflexivity. }
    rewrite Ho1 in Hr1 |- *. mstep.
    match goal with |- context [bind (Service.revokeToken env config ?tok) _ ?W] =>
      destruct (revokeToken_run env config tok W) as (r2 & Hr2 & Hok2)
    end.
    rewrite (bind_Some _ _ _ _ _ Hr2). cbn [step trace heap localCache redisDB] in Hok2, Hr2 |- *.
    fold o2 in Hok2, Hr2 |- *.
    destruct (httpOK o2) eqn:E2.
    + subst r2.
      assert (Ho2 : revokeEvents config o2 (Models.RefreshToken t)
                    = [revokeRequest config (Models.RefreshToken t)]).
      { destruct o2; try discriminate; reflexivity. }
      rewrite Ho2.
      match goal with |- context [FallbackTokenStore.DeleteToken env prefix u ?W] =>
        destruct (fallback_DeleteToken_spec env prefix u W) as (w' & l & Hd & _ & Hdc & Hdt)
      end.
      rewrite Hd. exists None, w'. split; [reflexivity|].
      eexists. split; [exact Hr1|]. split; [reflexivity|]. split; [exact Hdc|].
      exists (l ++ [EvUnlock; EvLock]). rewrite Hdt, <- app_assoc. reflexivity.
    + destruct Hok2 as (e & ->). eexists _, _. split; [reflexivity|].
      eexists. split; [exact Hr1|]. split; [exact Hr2|].
      split; [eexists; reflexivity|]. split; [|reflexivity].
      unfold kept. cbn [localCache heap redisDB]. repeat split; try assumption.
      match goal with |- context [FallbackTokenStore.GetToken env prefix u ?W] =>
        destruct (fallback_GetToken_retrievable env prefix u W p t Hc Hp)
          as (q & w'' & t' & l' & Hq & Hq' & _)
      end.
      exists q, w'', t'. auto.
  - destruct Hok1 as (e & ->). eexists _, _. split; [reflexivity|].
    split; [exact Hr1|]. split; [eexists; reflexivity|]. split; [|reflexivity].
    unfold kept. cbn [localCache heap redisDB]. repeat split; try assumption.
    match goal with |- context [FallbackTokenStore.GetToken env prefix u ?W] =>
      destruct (fallback_GetToken_retrievable env prefix u W p t Hc Hp)
        as (q & w'' & t' & l' & Hq & Hq' & _)
    end.
    exists q, w'', t'. auto.
Qed.

Lemma Disconnect_deletes_only_after_revocations_witness :
  exists r w',
    Service.Disconnect Examples.envRevokeFails Examples.config
      (FallbackTokenStore.store Examples.envRevokeFails "qb") "u1"
      Examples.worldCached = Some (r, w') /\
    (exists e, r = Some e) /\
    localCache w' !! "u1" = Some 1%positive /\
    heap w' !! 1%positive = Some Examples.oldRecord.
Proof.
  destruct (Disconnect_deletes_only_after_revocations Examples.envRevokeFails
              Examples.config "qb" "u1" Examples.worldCached Examples.worldLoaded
              1%positive Examples.oldRecord
              ltac:(vm_compute; reflexivity) ltac:(vm_compute; reflexivity))
    as (r & w' & Hd & Hrest).
  exists r, w'. split; [exact Hd|].
  change (Service.revokeToken Examples.envRevokeFails Examples.config
            (AccessToken Examples.oldRecord) Examples.worldLoaded = Some (r, w') /\
          (exists e, r = Some e) /\
          (localCache w' !! "u1" = Some 1%positive /\
           heap w' !! 1%positive = Some Examples.oldRecord /\
           redisDB w' = redisDB Examples.worldLoaded /\
           exists q w'' t',
             FallbackTokenStore.GetToken Examples.envRevokeFails "qb" "u1" w'
               = Some (Ok q, w'') /\ heap w'' !! q = Some t') /\
          trace w' = revokeEvents Examples.config
                       (httpDo Examples.envRevokeFails (step Examples.worldLoaded))
                       (AccessToken Examples.oldRecord)
                     ++ trace Examples.worldLoaded) in Hrest.
  destruct Hrest as (_ & He & (Hc & Hh & _) & _).
  auto.
Defined.

(** ** The callback handler *)

Lemma HandleCallback_success (env : Env) (config : OAuthConfig)
    (prefix code state u : string) (w : World) (body : string) (resp : OAuthToken) :
  httpDo env (step w) = HttpStatus 200 body ->
  json_Decode env body = Some resp ->
  exists q w',
    Service.HandleCallback env config (FallbackTokenStore.store env prefix)
      code state u w = Some (Ok q, w') /\
    heap w !! q = None /\
    heap w' = <[q := set_ExpiresAt (withQueryRealm env config resp)
                       (GoTime.Add (clock env (S (step w)))
                                   (GoTime.Seconds (ExpiresIn resp)))]> (heap w) /\
    localCache w' = <[u := q]> (localCache w).
Proof.
  intros Hh Hd. unfold Service.HandleCallback.
  cbn [SaveToken FallbackTokenStore.store].
  rewrite (bind_Some _ _ _ _ _ (executeTokenRequest_ok env config _ body resp w Hh Hd)).
  set (q := fresh (dom (heap w))).
  assert (Hq : heap w !! q = None) by apply (alloc_fresh resp).
  destruct (withQueryRealm_fields env config resp) as (_ & _ & _ & Fi & _).
  do 3 mstep.
  match goal with |- context [bind (FallbackTokenStore.SaveToken env prefix u q) _ ?W] =>
    destruct (fallback_SaveToken_spec env prefix u q _ W ltac:(heap_lookup))
      as (w' & l & Hs & Hh' & Hc' & _)
  end.
  rewrite (bind_Some _ _ _ _ _ Hs).
  exists q, w'. split; [reflexivity|]. split; [exact Hq|].
  rewrite Hh', Hc'. cbn [step heap localCache set_step set_heap].
  rewrite insert_insert_eq, Fi. auto.
Qed.




(** ** The replication routine *)

Lemma replicate_spec (env : Env) (prefix : string) (order : list (string * ptr)) :
  forall w : World,
    (forall id p, In (id, p) order -> is_Some (heap w !! p)) ->
    exists errs w' l,
      FallbackTokenStore.replicate env prefix order w = Some (tt, w') /\
      length errs = length order /\
      heap w' = heap w /\ localCache w' = localCache w /\
      trace w' = l ++ trace w /\
      List.filter isAudit l = rev (passAudit order errs).
Proof.
  induction order as [|[id p] rest IH]; intros w Hwf.
  - exists [], w, []. repeat split; reflexivity.
  - destruct (Hwf id p (or_introl eq_refl)) as [t Hp].
    destruct (redis_SaveToken_spec env prefix id p t w Hp)
      as (err & w1 & l1 & Hs & Hh1 & Hc1 & Ht1 & Hf1).
    cbn [FallbackTokenStore.replicate].
    rewrite (bind_Some _ _ _ _ _ Hs).
    destruct err as [e|].
    + mstep.
      match goal with |- context [FallbackTokenStore.replicate env prefix rest ?W] =>
        destruct (IH W) as (errs & w' & l & Hr & Hlen & Hh & Hc & Ht & Hf)
      end.
      { intros id' p' Hin. cbn [heap set_trace]. rewrite Hh1.
        apply (Hwf id' p'). right. exact Hin. }
      exists (Some e :: errs), w',
        (l ++ EvLog ("Replication error for user " +:+ id) e
           :: EvRedisSaveToken id (Some e) :: l1).
      split; [exact Hr|]. cbn [length]. rewrite Hlen, Hh, Hc, Ht.
      cbn [heap localCache trace set_trace]. rewrite Hh1, Hc1, Ht1.
      repeat split; try reflexivity.
      * rewrite <- app_assoc. reflexivity.
      * rewrite List.filter_app. cbn [List.filter isAudit passAudit].
        rewrite Hf, Hf1. cbn [rev app]. rewrite <- app_assoc. reflexivity.
    + mstep.
      destruct (IH w1) as (errs & w' & l & Hr & Hlen & Hh & Hc & Ht & Hf).
      { intros id' p' Hin. rewrite Hh1. apply (Hwf id' p'). right. exact Hin. }
      exists (None :: errs), w', (l ++ EvRedisSaveToken id None :: l1).
      split; [exact Hr|]. cbn [length]. rewrite Hlen, Hh, Hc, Ht, Hh1, Hc1, Ht1.
      repeat split; try reflexivity.
      * rewrite <- app_assoc. reflexivity.
      * rewrite List.filter_app. cbn [List.filter isAudit passAudit].
        rewrite Hf, Hf1. cbn [rev app]. reflexivity.
Qed.

(** C9.  One pass of the replication routine over a cache without nil
    pointers, whatever the order of the range loop.  When the health check
    reports trusted, the pass takes the read lock, copies the whole cache
    and releases the lock; then it calls the durable save once for every
    entry of the copy, in the order of the loop, and each failed save is
    followed by its log line and by the saves of the remaining entries.
    The cache is not changed.  When the health check does not report
    trusted, the pass does nothing. *)
Theorem replicationPass_pushes_every_entry (env : Env) (prefix : string) (w : World) :
  cache_wf w ->
  (forall i m, rangeOrder env i m ≡ₚ map_to_list m) ->
  if healthCheck env (step w) then
    let order := rangeOrder env (S (step w)) (localCache w) in
    (forall id p, localCache w !! id = Some p <-> In (id, p) order) /\
    exists errs w' l,
      FallbackTokenStore.replicationPass env prefix w = Some (tt, w') /\
      length errs = length order /\
      trace w' = l ++ EvRUnlock :: EvRLock :: trace w /\
      List.filter isAudit l = rev (passAudit order errs) /\
      localCache w' = localCache w /\ heap w' = heap w
  else
    FallbackTokenStore.replicationPass env prefix w
      = Some (tt, set_step w (S (step w))).
Proof.
  intros Hwf Hrange.
  unfold FallbackTokenStore.replicationPass, FallbackTokenStore.healthy.
  rewrite bind_assoc. do 2 mstep.
  destruct (healthCheck env (step w)); cbn [negb]; [|reflexivity].
  assert (Hmem : forall id p,
             localCache w !! id = Some p <->
             In (id, p) (rangeOrder env (S (step w)) (localCache w))).
  { intros id p. rewrite <- list_elem_of_In, (Hrange (S (step w)) (localCache w)).
    symmetry. apply elem_of_map_to_list. }
  split; [exact Hmem|].
  mstep. unfold bind at 1. do 2 mstep.
  cbn [step set_step set_trace heap localCache redisDB trace].
  match goal with |- context [FallbackTokenStore.replicate env prefix ?o ?W] =>
    destruct (replicate_spec env prefix o W) as (errs & w' & l & Hr & Hlen & Hh & Hc & Ht & Hf)
  end.
  { intros id p Hin. apply (Hwf id p), Hmem, Hin. }
  exists errs, w', l. repeat split; assumption.
Qed.

Lemma worldTwoCached_wf : cache_wf Examples.worldTwoCached.
Proof.
  intros u p H. unfold Examples.worldTwoCached in H. cbn [localCache] in H.
  apply lookup_insert_Some in H as [[<- <-]|[_ H]].
  - vm_compute. eauto.
  - apply lookup_singleton_Some in H as [<- <-]. vm_compute. eauto.
Defined.

Lemma replicationPass_pushes_every_entry_witness :
  let order := map_to_list (localCache Examples.worldTwoCached) in
  exists errs w' l,
    FallbackTokenStore.replicationPass Examples.envReplicate "qb"
      Examples.worldTwoCached = Some (tt, w') /\
    length errs = length order /\
    trace w' = l ++ EvRUnlock :: EvRLock :: trace Examples.worldTwoCached /\
    List.filter isAudit l = rev (passAudit order errs).
Proof.
  pose proof (replicationPass_pushes_every_entry Examples.envReplicate "qb"
                Examples.worldTwoCached worldTwoCached_wf
                (fun _ m => reflexivity (map_to_list m))) as H.
  cbv beta iota zeta delta [healthCheck Examples.envReplicate rangeOrder] in H.
  destruct H as [_ (errs & w' & l & Hrun & Hlen & Ht & Hf & _)].
  exists errs, w', l. repeat split; assumption.
Defined.

(** ** The health checker *)

Lemma last_cons_default {A} (x : A) (l : list A) (d d' : A) :
  List.last (x :: l) d = List.last (x :: l) d'.
Proof.
  revert x. induction l as [|y l IH]; intros x; [reflexivity|].
  change (List.last (y :: l) d = List.last (y :: l) d'). apply IH.
Qed.

Section AnyBreaker.
Import gobreaker.
Variable Breaker : Type.
Variable newBreaker : Settings -> Breaker.
Variable execute : Breaker -> GoTime.Time -> PingResult -> bool * ExecResult * Breaker.

Lemma Check_sets_status (h : HealthChecker.t Breaker) (now : GoTime.Time)
    (ping : PingResult) :
  HealthChecker.IsHealthy Breaker (snd (HealthChecker.Check Breaker execute h now ping))
  = fst (HealthChecker.Check Breaker execute h now ping).
Proof.
  unfold HealthChecker.Check.
  destruct (execute (HealthChecker.circuitBreaker Breaker h) now ping) as [[ran res] cb].
  reflexivity.
Qed.

Lemma startPeriodicChecks_status (probes : list (GoTime.Time * PingResult)) :
  forall h : HealthChecker.t Breaker,
    HealthChecker.IsHealthy Breaker
      (snd (HealthChecker.startPeriodicChecks Breaker execute h probes))
    = List.last (fst (HealthChecker.startPeriodicChecks Breaker execute h probes))
                (HealthChecker.IsHealthy Breaker h).
Proof.
  induction probes as [|[now ping] rest IH]; intros h.
  - reflexivity.
  - cbn [HealthChecker.startPeriodicChecks].
    pose proof (Check_sets_status h now ping) as Hc.
    destruct (HealthChecker.Check Breaker execute h now ping) as [b h1].
    specialize (IH h1).
    destruct (HealthChecker.startPeriodicChecks Breaker execute h1 rest) as [bs h2].
    cbn [fst snd] in *. rewrite IH, Hc.
    destruct bs as [|b0 bs]; [reflexivity|].
    change (List.last (b0 :: bs) b
            = List.last (b0 :: bs) (HealthChecker.IsHealthy Breaker h)).
    apply last_cons_default.
Qed.

(** C10.  Whatever the circuit breaker does: a new health checker is not
    healthy, and after any run of checks none of which returned true it is
    still not healthy; the flag always holds what the last check
    returned. *)
Theorem IsHealthy_false_until_first_successful_Check (checkInterval : Z)
    (probes : list (GoTime.Time * PingResult)) :
  let h0 := HealthChecker.NewHealthChecker Breaker newBreaker checkInterval in
  let run := HealthChecker.startPeriodicChecks Breaker execute h0 probes in
  HealthChecker.IsHealthy Breaker h0 = false /\
  HealthChecker.IsHealthy Breaker (snd run) = List.last (fst run) false /\
  (Forall (fun b => b = false) (fst run) ->
   HealthChecker.IsHealthy Breaker (snd run) = false).
Proof.
  intros h0 run. split; [reflexivity|].
  pose proof (startPeriodicChecks_status probes h0) as Hs. fold run in Hs.
  split; [exact Hs|].
  intros Hall. rewrite Hs. cbn [HealthChecker.IsHealthy HealthChecker.status h0
                                     HealthChecker.NewHealthChecker].
  destruct (fst run) as [|b bs] eqn:E using rev_ind; [reflexivity|].
  rewrite last_last. rewrite Forall_app, Forall_cons in Hall. tauto.
Qed.

End AnyBreaker.

Lemma IsHealthy_false_until_first_successful_Check_witness :
  RedisHealth.IsHealthy
    (snd (RedisHealth.startPeriodicChecks (RedisHealth.NewHealthChecker 30)
            [(0, gobreaker.PingErr); (1, gobreaker.PingOk "LOADING")])) = false.
Proof.
  apply (IsHealthy_false_until_first_successful_Check gobreaker.CircuitBreaker
           gobreaker.NewCircuitBreaker gobreaker.Execute 30
           [(0, gobreaker.PingErr); (1, gobreaker.PingOk "LOADING")]).
  repeat constructor.
Defined.

(** *** The breaker of the Redis health checker *)

Lemma Execute_settings (cb : gobreaker.CircuitBreaker) (now : GoTime.Time)
    (ping : gobreaker.PingResult) :
  gobreaker.settings (snd (gobreaker.Execute cb now ping)) = gobreaker.settings cb.
Proof.
  unfold gobreaker.Execute, gobreaker.currentState.
  destruct cb as [st s c e]; cbn.
  destruct s; cbn; try destruct (e <? now); cbn; destruct ping; cbn;
    try destruct (gobreaker.ReadyToTrip st _); reflexivity.
Qed.

Lemma Check_settings (h : RedisHealth.checker) (now : GoTime.Time)
    (ping : gobreaker.PingResult) :
  gobreaker.settings (RedisHealth.breaker (snd (RedisHealth.Check h now ping)))
  = gobreaker.settings (RedisHealth.breaker h).
Proof.
  unfold RedisHealth.Check, HealthChecker.Check, RedisHealth.breaker.
  pose proof (Execute_settings (HealthChecker.circuitBreaker _ h) now ping) as H.
  destruct (gobreaker.Execute (HealthChecker.circuitBreaker _ h) now ping) as [[ran res] cb].
  exact H.
Qed.

Lemma startPeriodicChecks_settings (probes : list (GoTime.Time * gobreaker.PingResult)) :
  forall h : RedisHealth.checker,
    gobreaker.settings
      (RedisHealth.breaker (snd (RedisHealth.startPeriodicChecks h probes)))
    = gobreaker.settings (RedisHealth.breaker h).
Proof.
  induction probes as [|[now ping] rest IH]; intros h; [reflexivity|].
  unfold RedisHealth.startPeriodicChecks in *.
  cbn [HealthChecker.startPeriodicChecks].
  pose proof (Check_settings h now ping) as Hc. unfold RedisHealth.Check in Hc.
  destruct (HealthChecker.Check _ gobreaker.Execute h now ping) as [b h1].
  specialize (IH h1).
  destruct (HealthChecker.startPeriodicChecks _ gobreaker.Execute h1 rest) as [bs h2].
  cbn [snd] in *. congruence.
Qed.

(** C8.  The Redis health checker in any state [h] that periodic checks
    reach from its construction, at a check made at time [now].
    [IsHealthy] reads the cached flag.  While the breaker is closed, a
    failed probe makes the checker unhealthy and opens the breaker exactly
    when the consecutive failures reach 3, for 30 s from then; a probe that
    is answered resets the count.  While the breaker is open and the 30 s
    have not passed, a check sends no PING, leaves the breaker as it is and
    leaves the checker unhealthy, whatever the dependency would answer.
    Once the 30 s have passed, the next check sends the trial PING: a PONG
    closes the breaker and makes the checker healthy, a failure opens the
    breaker for another 30 s.  In particular three failed probes after
    construction open the breaker, and two do not. *)
Theorem breaker_opens_cools_down_and_recovers (checkInterval : Z)
    (probes : list (GoTime.Time * gobreaker.PingResult)) (now : GoTime.Time) :
  let h0 := RedisHealth.NewHealthChecker checkInterval in
  let h := snd (RedisHealth.startPeriodicChecks h0 probes) in
  let cb := RedisHealth.breaker h in
  let failures := gobreaker.ConsecutiveFailures (gobreaker.counts cb) in
  let after ping := snd (RedisHealth.Check h now ping) in
  RedisHealth.IsHealthy h = HealthChecker.status _ h /\
  (gobreaker.state cb = gobreaker.StateClosed ->
   RedisHealth.IsHealthy (after gobreaker.PingErr) = false /\
   RedisHealth.pings (after gobreaker.PingErr) = S (RedisHealth.pings h) /\
   (if (3 <=? S failures)%nat
    then gobreaker.state (RedisHealth.breaker (after gobreaker.PingErr))
           = gobreaker.StateOpen /\
         gobreaker.expiry (RedisHealth.breaker (after gobreaker.PingErr))
           = now + RedisHealth.coolDown
    else gobreaker.state (RedisHealth.breaker (after gobreaker.PingErr))
           = gobreaker.StateClosed /\
         gobreaker.ConsecutiveFailures
           (gobreaker.counts (RedisHealth.breaker (after gobreaker.PingErr)))
           = S failures) /\
   forall reply,
     gobreaker.state (RedisHealth.breaker (after (gobreaker.PingOk reply)))
       = gobreaker.StateClosed /\
     gobreaker.ConsecutiveFailures
       (gobreaker.counts (RedisHealth.breaker (after (gobreaker.PingOk reply))))
       = 0%nat) /\
  (gobreaker.state cb = gobreaker.StateOpen -> now <= gobreaker.expiry cb ->
   forall ping,
     fst (RedisHealth.Check h now ping) = false /\
     RedisHealth.IsHealthy (after ping) = false /\
     RedisHealth.breaker (after ping) = cb /\
     RedisHealth.pings (after ping) = RedisHealth.pings h) /\
  (gobreaker.state cb = gobreaker.StateOpen -> gobreaker.expiry cb < now ->
   (RedisHealth.IsHealthy (after (gobreaker.PingOk "PONG")) = true /\
    gobreaker.state (RedisHealth.breaker (after (gobreaker.PingOk "PONG")))
      = gobreaker.StateClosed /\
    RedisHealth.pings (after (gobreaker.PingOk "PONG")) = S (RedisHealth.pings h)) /\
   (RedisHealth.IsHealthy (after gobreaker.PingErr) = false /\
    gobreaker.state (RedisHealth.breaker (after gobreaker.PingErr))
      = gobreaker.StateOpen /\
    gobreaker.expiry (RedisHealth.breaker (after gobreaker.PingErr))
      = now + RedisHealth.coolDown)) /\
  (forall t1 t2 t3,
     let h2 := snd (RedisHealth.startPeriodicChecks h0
                      [(t1, gobreaker.PingErr); (t2, gobreaker.PingErr)]) in
     let h3 := snd (RedisHealth.Check h2 t3 gobreaker.PingErr) in
     gobreaker.state (RedisHealth.breaker h2) = gobreaker.StateClosed /\
     gobreaker.state (RedisHealth.breaker h3) = gobreaker.StateOpen /\
     gobreaker.expiry (RedisHealth.breaker h3) = t3 + RedisHealth.coolDown /\
     RedisHealth.IsHealthy h3 = false).
Proof.
  intros h0 h cb failures after.
  assert (Hset : gobreaker.settings cb = HealthChecker.breakerSettings)
    by apply (startPeriodicChecks_settings probes h0).
  subst after failures.
  unfold RedisHealth.Check, HealthChecker.Check, RedisHealth.IsHealthy,
    RedisHealth.breaker, RedisHealth.pings, gobreaker.Execute,
    gobreaker.currentState in *.
  fold (RedisHealth.breaker h) in *. fold cb.
  destruct cb as [st s c e]. cbn in Hset. subst st. cbn.
  split; [reflexivity|]. split; [|split; [|split]].
  - intros ->. destruct c as [[|[|n]]]; cbn; auto.
  - intros -> Hnow ping. destruct (Z.ltb_spec e now); [lia|]. cbn. auto.
  - intros -> Hnow. destruct (Z.ltb_spec e now); [|lia]. cbn. auto.
  - intros t1 t2 t3. cbn. auto.
Qed.

Lemma breaker_opens_cools_down_and_recovers_witness :
  let tripped :=
    snd (RedisHealth.startPeriodicChecks (RedisHealth.NewHealthChecker 30)
           [(0, gobreaker.PingErr); (30 * GoTime.Second, gobreaker.PingErr);
            (60 * GoTime.Second, gobreaker.PingErr)]) in
  RedisHealth.IsHealthy
    (snd (RedisHealth.Check tripped (70 * GoTime.Second) (gobreaker.PingOk "PONG")))
    = false /\
  RedisHealth.IsHealthy
    (snd (RedisHealth.Check tripped (91 * GoTime.Second) (gobreaker.PingOk "PONG")))
    = true.
Proof.
  intros tripped. split.
  - pose proof (breaker_opens_cools_down_and_recovers 30
                  [(0, gobreaker.PingErr); (30 * GoTime.Second, gobreaker.PingErr);
                   (60 * GoTime.Second, gobreaker.PingErr)]
                  (70 * GoTime.Second)) as H.
    cbv zeta in H. destruct H as (_ & _ & Hopen & _).
    apply Hopen; [reflexivity | vm_compute; discriminate].
  - pose proof (breaker_opens_cools_down_and_recovers 30
                  [(0, gobreaker.PingErr); (30 * GoTime.Second, gobreaker.PingErr);
                   (60 * GoTime.Second, gobreaker.PingErr)]
                  (91 * GoTime.Second)) as H.
    cbv zeta in H. destruct H as (_ & _ & _ & Hhalf & _).
    apply Hhalf; reflexivity.
Defined.

(** ** Further properties of the Redis-backed store *)

Lemma key_inj (prefix u1 u2 : string) :
  RedisTokenStore.key prefix u1 = RedisTokenStore.key prefix u2 -> u1 = u2.
Proof.
  unfold RedisTokenStore.key. intros H.
  apply (inj (String.append prefix)) in H.
  apply (inj (String.append ":token:")) in H. exact H.
Qed.

(** X1.  Under one prefix, different users have different Redis keys.
    Under different prefixes two users can share a key, when a user id
    contains the separator. *)
Theorem key_injective_under_one_prefix :
  (forall prefix u1 u2,
     RedisTokenStore.key prefix u1 = RedisTokenStore.key prefix u2 -> u1 = u2) /\
  RedisTokenStore.key "qb" "a:token:b" = RedisTokenStore.key "qb:token:a" "b".
Proof. split; [exact key_inj | reflexivity]. Qed.

Lemma wrap64_small (z : Z) :
  GoTime.minDuration <= z <= GoTime.maxDuration -> GoTime.wrap64 z = z.
Proof.
  unfold GoTime.minDuration, GoTime.maxDuration, GoTime.wrap64. intros H.
  rewrite Z.mod_small by lia. lia.
Qed.

Lemma Sub_small (t u : GoTime.Time) :
  GoTime.minDuration <= t - u <= GoTime.maxDuration -> GoTime.Sub t u = t - u.
Proof.
  unfold GoTime.Sub. intros H.
  destruct (Z.ltb_spec (t - u) GoTime.minDuration); [lia|].
  destruct (Z.ltb_spec GoTime.maxDuration (t - u)); [lia|]. reflexivity.
Qed.

Lemma redis_SaveToken_written (env : Env) (prefix u : string) (p : ptr)
    (t : OAuthToken) (data : string) (w : World) :
  heap w !! p = Some t ->
  json_Marshal env t = Some data ->
  redisUp env (S (step w)) = true ->
  let ttl := GoTime.wrap64 (GoTime.Until (clock env (step w)) (ExpiresAt t)
                            + 24 * GoTime.Hour) in
  RedisTokenStore.SaveToken env prefix u p w =
    Some (None,
          mkWorld (heap w) (localCache w)
                  (<[RedisTokenStore.key prefix u := (data, ttl)]> (redisDB w))
                  (S (S (step w)))
                  (EvRedisSaveToken u None
                   :: EvRedisSet (RedisTokenStore.key prefix u) data ttl :: trace w)).
Proof.
  intros Hp Hm Hup ttl. unfold RedisTokenStore.SaveToken.
  rewrite (bind_Some _ _ _ _ _ (load_Some _ _ _ Hp)), Hm.
  unfold bind, now, tick, emit, ret; cbn. rewrite Hup. reflexivity.
Qed.

Lemma redis_SaveToken_failed (env : Env) (prefix u : string) (p : ptr)
    (t : OAuthToken) (w : World) :
  heap w !! p = Some t ->
  (json_Marshal env t = None \/ redisUp env (S (step w)) = false) ->
  exists e w',
    RedisTokenStore.SaveToken env prefix u p w = Some (Some e, w') /\
    heap w' = heap w /\ localCache w' = localCache w /\ redisDB w' = redisDB w.
Proof.
  intros Hp Hfail. unfold RedisTokenStore.SaveToken.
  rewrite (bind_Some _ _ _ _ _ (load_Some _ _ _ Hp)).
  destruct (json_Marshal env t) as [data|].
  - destruct Hfail as [|Hdown]; [discriminate|].
    unfold bind, now, tick, emit, ret; cbn. rewrite Hdown.
    eexists _, _. repeat split; reflexivity.
  - unfold bind, emit, ret; cbn. eexists _, _. repeat split; reflexivity.
Qed.

(** X2.  Round trip through the Redis-backed store: a token that marshals
    to a document that unmarshals to the same token, saved and read back
    while Redis answers, comes back as a new object with the same content;
    the object saved is left as it was. *)
Theorem redis_SaveToken_GetToken_roundtrip (env : Env) (prefix u : string) (p : ptr)
    (t : OAuthToken) (data : string) (w : World) :
  heap w !! p = Some t ->
  json_Marshal env t = Some data ->
  json_Unmarshal env data = Some t ->
  redisUp env (S (step w)) = true ->
  redisUp env (S (S (step w))) = true ->
  exists w1 q w2,
    RedisTokenStore.SaveToken env prefix u p w = Some (None, w1) /\
    RedisTokenStore.GetToken env prefix u w1 = Some (Ok q, w2) /\
    q <> p /\ heap w2 !! q = Some t /\ heap w2 !! p = Some t.
Proof.
  intros Hp Hm Hu Hset Hget.
  pose proof (redis_SaveToken_written env prefix u p t data w Hp Hm Hset) as Hs.
  cbv zeta in Hs. eexists. 
  destruct (redis_GetToken_spec env prefix u
              (mkWorld (heap w) (localCache w)
                 (<[RedisTokenStore.key prefix u :=
                      (data, GoTime.wrap64 (GoTime.Until (clock env (step w)) (ExpiresAt t)
                                            + 24 * GoTime.Hour))]> (redisDB w))
                 (S (S (step w)))
                 (EvRedisSaveToken u None
                  :: EvRedisSet (RedisTokenStore.key prefix u) data
                       (GoTime.wrap64 (GoTime.Until (clock env (step w)) (ExpiresAt t)
                                       + 24 * GoTime.Hour)) :: trace w)))
    as (r & w2 & Hg & _ & _ & _ & _ & Hv).
  unfold redisValue in Hv. cbn [step redisDB heap] in Hv.
  rewrite Hget, lookup_insert_eq, Hu in Hv.
  destruct Hv as (q & -> & Hfresh & Hheap).
  exists q, w2. split; [exact Hs|]. split; [exact Hg|].
  assert (q <> p) by congruence.
  rewrite Hheap, lookup_insert_eq, lookup_insert_ne by assumption. auto.
Qed.

Lemma redis_SaveToken_GetToken_roundtrip_witness :
  exists w1 q w2,
    RedisTokenStore.SaveToken Examples.envAllUp "qb" "u1" 1%positive
      Examples.worldOldInRedis = Some (None, w1) /\
    RedisTokenStore.GetToken Examples.envAllUp "qb" "u1" w1 = Some (Ok q, w2) /\
    q <> 1%positive /\ heap w2 !! q = Some Examples.newRecord /\
    heap w2 !! 1%positive = Some Examples.newRecord.
Proof.
  apply (redis_SaveToken_GetToken_roundtrip Examples.envAllUp "qb" "u1" 1%positive
           Examples.newRecord "new" Examples.worldOldInRedis);
    vm_compute; reflexivity.
Defined.

(** X3.  Delete then read on the Redis-backed store, while Redis answers:
    the delete succeeds, the read that follows reports the missing key as
    its not-found error, and the keys of the other users are untouched.
    When the DEL fails, the delete returns an error and Redis is not
    changed. *)
Theorem redis_DeleteToken_then_GetToken (env : Env) (prefix u : string) (w : World) :
  (redisUp env (step w) = true ->
   redisUp env (S (step w)) = true ->
   exists w1 w2,
     RedisTokenStore.DeleteToken env prefix u w = Some (None, w1) /\
     RedisTokenStore.GetToken env prefix u w1 = Some (Err ErrRedisNil, w2) /\
     forall u', u' <> u ->
       redisDB w1 !! RedisTokenStore.key prefix u'
       = redisDB w !! RedisTokenStore.key prefix u') /\
  (redisUp env (step w) = false ->
   exists w1,
     RedisTokenStore.DeleteToken env prefix u w
       = Some (Some (ErrWrap "failed to delete token" ErrRedisDel), w1) /\
     redisDB w1 = redisDB w).
Proof.
  unfold RedisTokenStore.DeleteToken, bind, emit, tick, ret; cbn.
  split.
  - intros Hdel Hget. rewrite Hdel. cbn. eexists _, _.
    split; [reflexivity|].
    unfold RedisTokenStore.GetToken, bind, emit, tick, ret; cbn.
    rewrite Hget. cbn. rewrite lookup_delete_eq.
    split; [reflexivity|]. intros u' Hne.
    apply lookup_delete_ne. intros Hk. apply key_inj in Hk. congruence.
  - intros Hdel. rewrite Hdel. cbn. eexists. split; reflexivity.
Qed.

Lemma redis_DeleteToken_then_GetToken_witness :
  exists w1 w2,
    RedisTokenStore.DeleteToken Examples.envAllUp "qb" "u1" Examples.worldOldInRedis
      = Some (None, w1) /\
    RedisTokenStore.GetToken Examples.envAllUp "qb" "u1" w1
      = Some (Err ErrRedisNil, w2) /\
    forall u', u' <> "u1" ->
      redisDB w1 !! RedisTokenStore.key "qb" u'
      = redisDB Examples.worldOldInRedis !! RedisTokenStore.key "qb" u'.
Proof.
  destruct (redis_DeleteToken_then_GetToken Examples.envAllUp "qb" "u1"
              Examples.worldOldInRedis) as [Hup _].
  apply Hup; reflexivity.
Defined.

(** X4.  The time to live of a saved entry.  When the expiry of the token
    is within the range of a Duration of the time of the save, less 24 h,
    the entry is written with a time to live of the time until expiry plus
    24 h.  When the expiry is further away, the addition of the 24 h
    overflows and the time to live is negative. *)
Theorem redis_SaveToken_ttl (env : Env) (prefix u : string) (p : ptr)
    (t : OAuthToken) (data : string) (w : World) :
  heap w !! p = Some t ->
  json_Marshal env t = Some data ->
  redisUp env (S (step w)) = true ->
  let untilExpiry := ExpiresAt t - clock env (step w) in
  exists w' ttl,
    RedisTokenStore.SaveToken env prefix u p w = Some (None, w') /\
    redisDB w' !! RedisTokenStore.key prefix u = Some (data, ttl) /\
    (GoTime.minDuration <= untilExpiry <= GoTime.maxDuration - 24 * GoTime.Hour ->
     ttl = untilExpiry + 24 * GoTime.Hour) /\
    (GoTime.maxDuration - 24 * GoTime.Hour < untilExpiry -> ttl < 0).
Proof.
  intros Hp Hm Hup untilExpiry.
  pose proof (redis_SaveToken_written env prefix u p t data w Hp Hm Hup) as Hs.
  cbv zeta in Hs. eexists _, _. split; [exact Hs|].
  cbn [redisDB]. rewrite lookup_insert_eq. split; [reflexivity|].
  unfold GoTime.Until. fold untilExpiry.
  assert (H24 : 24 * GoTime.Hour = 86400000000000) by reflexivity.
  unfold GoTime.minDuration, GoTime.maxDuration in *. rewrite H24.
  split; intros Hr.
  - rewrite Sub_small by (unfold GoTime.minDuration, GoTime.maxDuration; lia).
    apply wrap64_small. unfold GoTime.minDuration, GoTime.maxDuration. lia.
  - unfold GoTime.Sub, GoTime.minDuration, GoTime.maxDuration.
    fold untilExpiry.
    destruct (Z.ltb_spec untilExpiry (- 2 ^ 63)); [lia|].
    destruct (Z.ltb_spec (2 ^ 63 - 1) untilExpiry).
    + vm_compute. reflexivity.
    + unfold GoTime.wrap64.
      replace ((untilExpiry + 86400000000000 + 2 ^ 63) mod 2 ^ 64)
        with (untilExpiry + 86400000000000 + 2 ^ 63 - 2 ^ 64); [lia|].
      symmetry. rewrite <- (Z.mod_small (untilExpiry + 86400000000000 + 2 ^ 63 - 2 ^ 64) (2 ^ 64)) by lia.
      rewrite <- (Z_mod_plus_full (untilExpiry + 86400000000000 + 2 ^ 63 - 2 ^ 64) 1 (2 ^ 64)).
      f_equal. lia.
Qed.

Lemma redis_SaveToken_ttl_witness :
  exists w' ttl,
    RedisTokenStore.SaveToken Examples.envAllUp "qb" "u1" 1%positive
      Examples.worldOldInRedis = Some (None, w') /\
    redisDB w' !! RedisTokenStore.key "qb" "u1" = Some ("new", ttl) /\
    ttl = 3600 * GoTime.Second + 24 * GoTime.Hour.
Proof.
  destruct (redis_SaveToken_ttl Examples.envAllUp "qb" "u1" 1%positive
              Examples.newRecord "new" Examples.worldOldInRedis
              ltac:(vm_compute; reflexivity) ltac:(reflexivity) ltac:(reflexivity))
    as (w' & ttl & Hs & Hdb & Hexact & _).
  exists w', ttl. split; [exact Hs|]. split; [exact Hdb|].
  apply Hexact. vm_compute. split; discriminate.
Defined.

(** ** Further properties of the resilient store *)

Lemma fallback_DeleteToken_full (env : Env) (prefix u : string) (w : World) :
  exists w' l,
    FallbackTokenStore.DeleteToken env prefix u w = Some (None, w') /\
    heap w' = heap w /\
    localCache w' = delete u (localCache w) /\
    trace w' = l ++ EvUnlock :: EvLock :: trace w /\
    if healthCheck env (step w)
    then last l = Some (EvRedisDel (RedisTokenStore.key prefix u)) /\
         step w' = S (S (step w)) /\
         redisDB w' = if redisUp env (S (step w))
                      then delete (RedisTokenStore.key prefix u) (redisDB w)
                      else redisDB w
    else l = [] /\ step w' = S (step w) /\ redisDB w' = redisDB w.
Proof.
  unfold FallbackTokenStore.DeleteToken, FallbackTokenStore.healthy,
    FallbackTokenStore.cacheDelete, RedisTokenStore.DeleteToken,
    bind, emit, tick, ret; simpl.
  destruct (healthCheck env (step w)); simpl.
  - destruct (redisUp env (S (step w))); simpl.
    + eexists _, [_]. repeat split; reflexivity.
    + eexists _, [_; _]. repeat split; reflexivity.
  - eexists _, []. repeat split; reflexivity.
Qed.

(** X5.  Resilient store [DeleteToken]: it always succeeds and removes the
    cache entry of the user, leaving the entries of other users and the
    token objects alone; Redis is asked to delete only when the health
    check reports trusted, and is not touched otherwise.  A read that
    follows fails with the not-found error whenever its durable read
    yields no value. *)
Theorem fallback_DeleteToken_removes_cache_entry (env : Env) (prefix u : string)
    (w : World) :
  exists w' l,
    FallbackTokenStore.DeleteToken env prefix u w = Some (None, w') /\
    localCache w' !! u = None /\
    (forall u', u' <> u -> localCache w' !! u' = localCache w !! u') /\
    heap w' = heap w /\
    trace w' = l ++ EvUnlock :: EvLock :: trace w /\
    (if healthCheck env (step w)
     then last l = Some (EvRedisDel (RedisTokenStore.key prefix u))
     else l = [] /\ redisDB w' = redisDB w) /\
    exists r w2,
      FallbackTokenStore.GetToken env prefix u w' = Some (r, w2) /\
      (durableValue env prefix u w' = None -> r = Err ErrTokenNotFound).
Proof.
  destruct (fallback_DeleteToken_full env prefix u w)
    as (w' & l & Hd & Hh & Hc & Ht & Hl).
  exists w', l. split; [exact Hd|].
  split; [rewrite Hc; apply lookup_delete_eq|].
  split; [intros u' Hne; rewrite Hc; apply lookup_delete_ne; congruence|].
  split; [exact Hh|]. split; [exact Ht|]. split.
  { destruct (healthCheck env (step w)); tauto. }
  destruct (fallback_GetToken_spec env prefix u w')
    as (r & w2 & l2 & Hg & _ & _ & _ & Hv).
  exists r, w2. split; [exact Hg|]. intros Hnone. rewrite Hnone in Hv.
  destruct Hv as (-> & _). rewrite Hc, lookup_delete_eq. reflexivity.
Qed.

(** X6.  A delete made while the durable tier is not trusted leaves the
    record in Redis, and a read made once the tier is trusted and answers
    brings the record back: it returns a token object with the content of
    the Redis document and caches it again for the user. *)
Theorem fallback_DeleteToken_untrusted_then_GetToken (env : Env) (prefix u : string)
    (w : World) (data : string) (ttl : Z) (t : OAuthToken) :
  healthCheck env (step w) = false ->
  redisDB w !! RedisTokenStore.key prefix u = Some (data, ttl) ->
  json_Unmarshal env data = Some t ->
  healthCheck env (S (step w)) = true ->
  redisUp env (S (S (step w))) = true ->
  exists w1 q w2,
    FallbackTokenStore.DeleteToken env prefix u w = Some (None, w1) /\
    localCache w1 !! u = None /\
    FallbackTokenStore.GetToken env prefix u w1 = Some (Ok q, w2) /\
    heap w2 !! q = Some t /\
    localCache w2 !! u = Some q.
Proof.
  intros Hun Hdb Hdec Hh Hup.
  destruct (fallback_DeleteToken_full env prefix u w)
    as (w1 & l & Hd & _ & Hc & _ & Hl).
  rewrite Hun in Hl. destruct Hl as (_ & Hstep & Hredis).
  destruct (fallback_GetToken_spec env prefix u w1)
    as (r & w2 & l2 & Hg & _ & _ & _ & Hv).
  assert (Hdv : durableValue env prefix u w1 = Some t).
  { unfold durableValue, redisValue. cbn [step set_step redisDB].
    rewrite Hstep, Hh, Hup, Hredis, Hdb. exact Hdec. }
  rewrite Hdv in Hv. destruct Hv as (q & -> & _ & Hheap & Hcache).
  exists w1, q, w2. split; [exact Hd|].
  split; [rewrite Hc; apply lookup_delete_eq|]. split; [exact Hg|].
  rewrite Hheap, Hcache, !lookup_insert_eq. auto.
Qed.

Lemma fallback_DeleteToken_untrusted_then_GetToken_witness :
  exists w1 q w2,
    FallbackTokenStore.DeleteToken Examples.envRecovering "qb" "u1"
      Examples.worldOldInRedis = Some (None, w1) /\
    localCache w1 !! "u1" = None /\
    FallbackTokenStore.GetToken Examples.envRecovering "qb" "u1" w1
      = Some (Ok q, w2) /\
    heap w2 !! q = Some Examples.oldRecord /\
    localCache w2 !! "u1" = Some q.
Proof.
  apply (fallback_DeleteToken_untrusted_then_GetToken Examples.envRecovering "qb" "u1"
           Examples.worldOldInRedis "old" 0 Examples.oldRecord);
    vm_compute; reflexivity.
Defined.

(** X7.  No nil pointer enters the cache through the resilient store: in a
    cache without nil pointers, saving an allocated token, reading and
    deleting each return and leave the cache without nil pointers, and a
    token that a read returns is allocated. *)
Theorem fallback_store_keeps_cache_wf (env : Env) (prefix u : string) (w : World) :
  cache_wf w ->
  (forall p, is_Some (heap w !! p) ->
     exists w', FallbackTokenStore.SaveToken env prefix u p w = Some (None, w') /\
                cache_wf w') /\
  (exists r w', FallbackTokenStore.GetToken env prefix u w = Some (r, w') /\
                cache_wf w' /\
                forall p, r = Ok p -> is_Some (heap w' !! p)) /\
  (exists w', FallbackTokenStore.DeleteToken env prefix u w = Some (None, w') /\
              cache_wf w').
Proof.
  intros Hwf. split; [|split].
  - intros p [t Hp].
    destruct (fallback_SaveToken_spec env prefix u p t w Hp)
      as (w' & l & Hs & Hh & Hc & _).
    exists w'. split; [exact Hs|].
    intros u' p' Hlook. rewrite Hh. rewrite Hc in Hlook.
    apply lookup_insert_Some in Hlook as [[_ <-]|[_ Hlook]]; [eauto|].
    exact (Hwf u' p' Hlook).
  - destruct (fallback_GetToken_spec env prefix u w)
      as (r & w' & l & Hg & _ & _ & _ & Hv).
    exists r, w'. split; [exact Hg|].
    destruct (durableValue env prefix u w) as [t|].
    + destruct Hv as (q & -> & Hfresh & Hh & Hc). split.
      * intros u' p' Hlook. rewrite Hh. rewrite Hc in Hlook.
        apply lookup_insert_Some in Hlook as [[_ <-]|[_ Hlook]].
        -- rewrite lookup_insert_eq. eauto.
        -- destruct (Hwf u' p' Hlook) as [t' Ht'].
           exists t'. rewrite lookup_insert_ne by congruence. exact Ht'.
      * intros p [= <-]. rewrite Hh, lookup_insert_eq. eauto.
    + destruct Hv as (Hr & Hc & Hh). split.
      * intros u' p' Hlook. rewrite Hh. rewrite Hc in Hlook. exact (Hwf u' p' Hlook).
      * intros p ->. rewrite Hh.
        destruct (localCache w !! u) as [p'|] eqn:E; [|discriminate].
        injection Hr as <-. exact (Hwf u p E).
  - destruct (fallback_DeleteToken_full env prefix u w)
      as (w' & l & Hd & Hh & Hc & _).
    exists w'. split; [exact Hd|].
    intros u' p' Hlook. rewrite Hh. rewrite Hc in Hlook.
    apply lookup_delete_Some in Hlook as [_ Hlook]. exact (Hwf u' p' Hlook).
Qed.

Lemma fallback_store_keeps_cache_wf_witness :
  exists r w',
    FallbackTokenStore.GetToken Examples.envAllUp "qb" "u1" Examples.worldTwoCached
      = Some (r, w') /\
    cache_wf w' /\
    forall p, r = Ok p -> is_Some (heap w' !! p).
Proof.
  destruct (fallback_store_keeps_cache_wf Examples.envAllUp "qb" "u1"
              Examples.worldTwoCached worldTwoCached_wf) as (_ & Hget & _).
  exact Hget.
Defined.

(** X8.  A read through the resilient store never writes to Redis, never
    changes or frees a token object that exists, and never changes the
    cache entry of another user. *)
Theorem fallback_GetToken_frame (env : Env) (prefix u : string) (w : World) :
  exists r w',
    FallbackTokenStore.GetToken env prefix u w = Some (r, w') /\
    redisDB w' = redisDB w /\
    heap w ⊆ heap w' /\
    forall u', u' <> u -> localCache w' !! u' = localCache w !! u'.
Proof.
  destruct (fallback_GetToken_spec env prefix u w)
    as (r & w' & l & Hg & Hdb & _ & _ & Hv).
  exists r, w'. split; [exact Hg|]. split; [exact Hdb|].
  destruct (durableValue env prefix u w) as [t|].
  - destruct Hv as (q & _ & Hfresh & -> & ->). split.
    + apply insert_subseteq. exact Hfresh.
    + intros u' Hne. apply lookup_insert_ne. congruence.
  - destruct Hv as (_ & -> & ->). split; [reflexivity|]. reflexivity.
Qed.

Lemma fallback_SaveToken_written (env : Env) (prefix u : string) (p : ptr)
    (t : OAuthToken) (data : string) (w : World) :
  heap w !! p = Some t ->
  healthCheck env (step w) = true ->
  json_Marshal env t = Some data ->
  redisUp env (S (S (step w))) = true ->
  exists w1 ttl,
    FallbackTokenStore.SaveToken env prefix u p w = Some (None, w1) /\
    heap w1 = heap w /\
    localCache w1 = <[u := p]> (localCache w) /\
    redisDB w1 = <[RedisTokenStore.key prefix u := (data, ttl)]> (redisDB w).
Proof.
  intros Hp Hh Hm Hup.
  unfold FallbackTokenStore.SaveToken, FallbackTokenStore.healthy,
    FallbackTokenStore.cachePut.
  do 3 mstep. rewrite bind_assoc. do 2 mstep.
  cbn [step trace heap localCache redisDB set_step set_trace set_localCache].
  rewrite Hh, bind_assoc.
  match goal with |- context [bind (RedisTokenStore.SaveToken env prefix u p) _ ?W] =>
    pose proof (redis_SaveToken_written env prefix u p t data W Hp Hm Hup) as Hs
  end.
  cbv zeta in Hs. rewrite (bind_Some _ _ _ _ _ Hs). mstep.
  eexists _, _. repeat split; reflexivity.
Qed.

(** X9.  Write-through round trip of the resilient store.  A save made
    while the durable tier is trusted and answers, of a token that marshals
    to a document that unmarshals to the same token, puts the document in
    Redis; after it a read returns the saved content whichever tier serves
    it, that is, whatever the health check and Redis do at the read. *)
Theorem fallback_SaveToken_write_through (env : Env) (prefix u : string) (p : ptr)
    (t : OAuthToken) (data : string) (w : World) :
  heap w !! p = Some t ->
  healthCheck env (step w) = true ->
  json_Marshal env t = Some data ->
  json_Unmarshal env data = Some t ->
  redisUp env (S (S (step w))) = true ->
  exists w1 ttl q w2,
    FallbackTokenStore.SaveToken env prefix u p w = Some (None, w1) /\
    redisDB w1 !! RedisTokenStore.key prefix u = Some (data, ttl) /\
    FallbackTokenStore.GetToken env prefix u w1 = Some (Ok q, w2) /\
    heap w2 !! q = Some t.
Proof.
  intros Hp Hh Hm Hu Hup.
  destruct (fallback_SaveToken_written env prefix u p t data w Hp Hh Hm Hup)
    as (w1 & ttl & Hs & Hheap & Hc & Hdb).
  destruct (fallback_GetToken_spec env prefix u w1)
    as (r & w2 & l & Hg & _ & _ & _ & Hv).
  assert (Hlook : redisDB w1 !! RedisTokenStore.key prefix u = Some (data, ttl))
    by (rewrite Hdb; apply lookup_insert_eq).
  destruct (durableValue env prefix u w1) as [t'|] eqn:Hdv.
  - destruct Hv as (q & -> & _ & Hh2 & _).
    exists w1, ttl, q, w2. repeat (split; [assumption|]).
    rewrite Hh2, lookup_insert_eq. f_equal.
    unfold durableValue, redisValue in Hdv. cbn [step set_step redisDB] in Hdv.
    rewrite Hlook, Hu in Hdv.
    destruct (healthCheck env (step w1)); [|discriminate].
    destruct (redisUp env (S (step w1))); congruence.
  - destruct Hv as (-> & _ & Hh2).
    rewrite Hc, lookup_insert_eq in Hg.
    exists w1, ttl, p, w2. repeat (split; [assumption|]).
    rewrite Hh2, Hheap. exact Hp.
Qed.

Lemma fallback_SaveToken_write_through_witness :
  exists w1 ttl q w2,
    FallbackTokenStore.SaveToken Examples.envAllUp "qb" "u1" 1%positive
      Examples.worldOldInRedis = Some (None, w1) /\
    redisDB w1 !! RedisTokenStore.key "qb" "u1" = Some ("new", ttl) /\
    FallbackTokenStore.GetToken Examples.envAllUp "qb" "u1" w1 = Some (Ok q, w2) /\
    heap w2 !! q = Some Examples.newRecord.
Proof.
  apply (fallback_SaveToken_write_through Examples.envAllUp "qb" "u1" 1%positive
           Examples.newRecord "new" Examples.worldOldInRedis);
    vm_compute; reflexivity.
Defined.

(** X10.  The cache follows the durable tier: when a read is served by
    the durable tier, a read that follows during an outage (its durable
    read yields no value) returns the same token object, with the content
    the durable tier had. *)
Theorem fallback_GetToken_caches_durable_value (env : Env) (prefix u : string)
    (w : World) (t : OAuthToken) :
  durableValue env prefix u w = Some t ->
  exists q w1,
    FallbackTokenStore.GetToken env prefix u w = Some (Ok q, w1) /\
    heap w1 !! q = Some t /\
    exists r w2,
      FallbackTokenStore.GetToken env prefix u w1 = Some (r, w2) /\
      (durableValue env prefix u w1 = None ->
       r = Ok q /\ heap w2 !! q = Some t).
Proof.
  intros Hdv.
  destruct (fallback_GetToken_spec env prefix u w)
    as (r & w1 & l & Hg & _ & _ & _ & Hv).
  rewrite Hdv in Hv. destruct Hv as (q & -> & _ & Hh & Hc).
  exists q, w1. split; [exact Hg|].
  split; [rewrite Hh; apply lookup_insert_eq|].
  destruct (fallback_GetToken_spec env prefix u w1)
    as (r2 & w2 & l2 & Hg2 & _ & _ & _ & Hv2).
  exists r2, w2. split; [exact Hg2|]. intros Hnone. rewrite Hnone in Hv2.
  destruct Hv2 as (-> & _ & Hh2).
  rewrite Hc, lookup_insert_eq, Hh2, Hh, lookup_insert_eq. auto.
Qed.

Lemma fallback_GetToken_caches_durable_value_witness :
  exists q w1,
    FallbackTokenStore.GetToken Examples.envAllUp "qb" "u1" Examples.worldOldInRedis
      = Some (Ok q, w1) /\
    heap w1 !! q = Some Examples.oldRecord /\
    exists r w2,
      FallbackTokenStore.GetToken Examples.envAllUp "qb" "u1" w1 = Some (r, w2) /\
      (durableValue Examples.envAllUp "qb" "u1" w1 = None ->
       r = Ok q /\ heap w2 !! q = Some Examples.oldRecord).
Proof.
  apply (fallback_GetToken_caches_durable_value Examples.envAllUp "qb" "u1"
           Examples.worldOldInRedis Examples.oldRecord).
  vm_compute. reflexivity.
Defined.

(** ** Further properties of the replication routine *)

Lemma replicate_writes (env : Env) (prefix : string) (order : list (string * ptr)) :
  (forall i, redisUp env i = true) ->
  (forall t, is_Some (json_Marshal env t)) ->
  forall w : World,
    (forall id p, In (id, p) order -> is_Some (heap w !! p)) ->
    exists w',
      FallbackTokenStore.replicate env prefix order w = Some (tt, w') /\
      heap w' = heap w /\ localCache w' = localCache w /\
      (forall k, (forall id p, In (id, p) order -> RedisTokenStore.key prefix id <> k) ->
                 redisDB w' !! k = redisDB w !! k) /\
      (forall id p,
         In (id, p) order ->
         (forall p', In (id, p') order -> p' = p) ->
         exists t data ttl,
           heap w !! p = Some t /\ json_Marshal env t = Some data /\
           redisDB w' !! RedisTokenStore.key prefix id = Some (data, ttl)).
Proof.
  intros Hup Hmar.
  induction order as [|[id0 p0] rest IH]; intros w Hwf.
  - exists w. cbn. repeat split; try reflexivity. intros id p [].
  - destruct (Hwf id0 p0 (or_introl eq_refl)) as [t0 Hp0].
    destruct (Hmar t0) as [data0 Hm0].
    pose proof (redis_SaveToken_written env prefix id0 p0 t0 data0 w Hp0 Hm0 (Hup _))
      as Hs.
    cbv zeta in Hs. cbn [FallbackTokenStore.replicate].
    rewrite (bind_Some _ _ _ _ _ Hs). mstep.
    match goal with |- context [FallbackTokenStore.replicate env prefix rest ?W] =>
      destruct (IH W) as (w' & Hr & Hh & Hc & Hframe & Hwritten)
    end.
    { intros id p Hin. apply (Hwf id p). right. exact Hin. }
    cbn [heap localCache redisDB] in Hh, Hc, Hframe, Hwritten.
    exists w'. split; [exact Hr|]. split; [exact Hh|]. split; [exact Hc|]. split.
    + intros k Hk. rewrite Hframe.
      * apply lookup_insert_ne. apply (Hk id0 p0). left. reflexivity.
      * intros id p Hin. apply (Hk id p). right. exact Hin.
    + intros id p Hin Hfun.
      destruct (decide ((id, p) ∈ rest)) as [Hrest|Hnot].
      * apply list_elem_of_In in Hrest.
        apply (Hwritten id p Hrest).
        intros p' Hin'. apply Hfun. right. exact Hin'.
      * destruct Hin as [[= -> ->]|Hin];
          [|exfalso; apply Hnot, list_elem_of_In, Hin].
        exists t0, data0. eexists. split; [exact Hp0|]. split; [exact Hm0|].
        rewrite Hframe; [apply lookup_insert_eq|].
        intros id' p' Hin' Hk. apply key_inj in Hk. subst id'.
        apply Hnot, list_elem_of_In.
        rewrite <- (Hfun p' (or_intror Hin')). exact Hin'.
Qed.

(** X11.  Reconciliation.  A pass of the replication routine made while
    the durable tier is trusted and Redis answers every command, over a
    cache without nil pointers whose tokens all marshal, leaves in Redis,
    under the key of every cached user, the document of that user's
    cached token; the cache and the tokens are not changed. *)
Theorem replicationPass_reconciles (env : Env) (prefix : string) (w : World) :
  cache_wf w ->
  (forall i m, rangeOrder env i m ≡ₚ map_to_list m) ->
  healthCheck env (step w) = true ->
  (forall i, redisUp env i = true) ->
  (forall t, is_Some (json_Marshal env t)) ->
  exists w',
    FallbackTokenStore.replicationPass env prefix w = Some (tt, w') /\
    localCache w' = localCache w /\ heap w' = heap w /\
    forall u p, localCache w !! u = Some p ->
      exists t data ttl,
        heap w !! p = Some t /\ json_Marshal env t = Some data /\
        redisDB w' !! RedisTokenStore.key prefix u = Some (data, ttl).
Proof.
  intros Hwf Hrange Hh Hup Hmar.
  assert (Hmem : forall id p,
             localCache w !! id = Some p <->
             In (id, p) (rangeOrder env (S (step w)) (localCache w))).
  { intros id p. rewrite <- list_elem_of_In, (Hrange (S (step w)) (localCache w)).
    symmetry. apply elem_of_map_to_list. }
  unfold FallbackTokenStore.replicationPass, FallbackTokenStore.healthy.
  rewrite bind_assoc. do 2 mstep. rewrite Hh. cbn [negb].
  mstep. unfold bind at 1. do 2 mstep.
  cbn [step set_step set_trace heap localCache redisDB trace].
  match goal with |- context [FallbackTokenStore.replicate env prefix ?o ?W] =>
    destruct (replicate_writes env prefix o Hup Hmar W)
      as (w' & Hr & Hheap & Hc & _ & Hwritten)
  end.
  { intros id p Hin. apply (Hwf id p), Hmem, Hin. }
  exists w'. split; [exact Hr|]. split; [exact Hc|]. split; [exact Hheap|].
  intros u p Hlook. apply (Hwritten u p).
  - apply Hmem, Hlook.
  - intros p' Hin'. apply Hmem in Hin'. congruence.
Qed.

Lemma replicationPass_reconciles_witness :
  exists w',
    FallbackTokenStore.replicationPass Examples.envAllUp "qb" Examples.worldTwoCached
      = Some (tt, w') /\
    localCache w' = localCache Examples.worldTwoCached /\
    heap w' = heap Examples.worldTwoCached /\
    forall u p, localCache Examples.worldTwoCached !! u = Some p ->
      exists t data ttl,
        heap Examples.worldTwoCached !! p = Some t /\
        json_Marshal Examples.envAllUp t = Some data /\
        redisDB w' !! RedisTokenStore.key "qb" u = Some (data, ttl).
Proof.
  apply (replicationPass_reconciles Examples.envAllUp "qb" Examples.worldTwoCached
           worldTwoCached_wf (fun _ m => reflexivity (map_to_list m))).
  - reflexivity.
  - intros i. reflexivity.
  - intros t. cbn. unfold Examples.marshal.
    destruct (String.eqb (AccessToken t) "access-new"); eauto.
Defined.

(** ** Further properties of the OAuth service *)

Lemma fallback_GetToken_no_upstream (env : Env) (prefix u : string) (w w' : World)
    (r : result ptr) :
  FallbackTokenStore.GetToken env prefix u w = Some (r, w') ->
  exists l, trace w' = l ++ trace w /\ List.filter isUpstreamRequest l = [].
Proof.
  unfold FallbackTokenStore.GetToken, FallbackTokenStore.healthy,
    RedisTokenStore.GetToken, FallbackTokenStore.cachePut,
    FallbackTokenStore.cacheGet, bind, emit, tick, ret, alloc; simpl.
  destruct (healthCheck env (step w)); simpl;
    [destruct (redisUp env (S (step w))); simpl;
     [destruct (redisDB w !! RedisTokenStore.key prefix u) as [[data ttl]|]; simpl;
      [destruct (json_Unmarshal env data); simpl|]|]|];
    try destruct (localCache w !! u); intros [= <- <-]; simpl;
    match goal with
    | |- exists l, ?a :: ?b :: ?c :: ?d :: trace w = _ /\ _ => exists [a; b; c; d]
    | |- exists l, ?a :: ?b :: ?c :: trace w = _ /\ _ => exists [a; b; c]
    | |- exists l, ?a :: ?b :: trace w = _ /\ _ => exists [a; b]
    end; split; reflexivity.
Qed.

(** X12.  A user unknown to both tiers causes no upstream traffic.  When
    the cache has no entry for the user and the durable read yields no
    value, [RefreshToken], [GetValidToken] and [Disconnect] on the
    resilient store each return the store's not-found error wrapped in
    their own message; no request is sent to the upstream and the token
    objects, the cache and Redis are left as they were. *)
Theorem service_unknown_user_not_found (env : Env) (config : OAuthConfig)
    (prefix u : string) (w : World) :
  localCache w !! u = None ->
  durableValue env prefix u w = None ->
  let store := FallbackTokenStore.store env prefix in
  exists w1 l,
    Service.RefreshToken env config store u w
      = Some (Err (ErrWrap "failed to get token for refresh" ErrTokenNotFound), w1) /\
    Service.GetValidToken env config store u w
      = Some (Err (ErrWrap "failed to get token" ErrTokenNotFound), w1) /\
    Service.Disconnect env config store u w
      = Some (Some (ErrWrap "failed to get token for revocation" ErrTokenNotFound), w1) /\
    trace w1 = l ++ trace w /\ List.filter isUpstreamRequest l = [] /\
    heap w1 = heap w /\ localCache w1 = localCache w /\ redisDB w1 = redisDB w.
Proof.
  intros Hc Hdv store.
  destruct (fallback_GetToken_spec env prefix u w)
    as (r & w1 & l0 & Hg & Hdb & _ & _ & Hv).
  rewrite Hdv, Hc in Hv. destruct Hv as (-> & Hcache & Hheap).
  destruct (fallback_GetToken_no_upstream env prefix u w w1 _ Hg) as (l & Ht & Hl).
  exists w1, l.
  unfold Service.RefreshToken, Service.GetValidToken, Service.Disconnect.
  cbn [GetToken store FallbackTokenStore.store].
  rewrite !(bind_Some _ _ _ _ _ Hg). repeat split; assumption.
Qed.

Lemma service_unknown_user_not_found_witness :
  exists w1 l,
    Service.RefreshToken Examples.envRefresh Examples.config
      (FallbackTokenStore.store Examples.envRefresh "qb") "u1" Examples.emptyWorld
      = Some (Err (ErrWrap "failed to get token for refresh" ErrTokenNotFound), w1) /\
    Service.GetValidToken Examples.envRefresh Examples.config
      (FallbackTokenStore.store Examples.envRefresh "qb") "u1" Examples.emptyWorld
      = Some (Err (ErrWrap "failed to get token" ErrTokenNotFound), w1) /\
    Service.Disconnect Examples.envRefresh Examples.config
      (FallbackTokenStore.store Examples.envRefresh "qb") "u1" Examples.emptyWorld
      = Some (Some (ErrWrap "failed to get token for revocation" ErrTokenNotFound), w1) /\
    trace w1 = l ++ trace Examples.emptyWorld /\
    List.filter isUpstreamRequest l = [] /\
    heap w1 = heap Examples.emptyWorld /\
    localCache w1 = localCache Examples.emptyWorld /\
    redisDB w1 = redisDB Examples.emptyWorld.
Proof.
  apply (service_unknown_user_not_found Examples.envRefresh Examples.config "qb" "u1"
           Examples.emptyWorld); reflexivity.
Defined.

Lemma executeTokenRequest_failed (env : Env) (config : OAuthConfig)
    (data : list (string * string)) (w : World) :
  (forall body resp, httpDo env (step w) = HttpStatus 200 body ->
                     json_Decode env body = Some resp -> False) ->
  exists e l,
    Service.executeTokenRequest env config data w =
      Some (Err e, mkWorld (heap w) (localCache w) (redisDB w) (S (step w))
                           (l ++ trace w)) /\
    (forall code body, httpDo env (step w) = HttpStatus code body ->
                       code <> 200 -> e = ErrStatus code body).
Proof.
  intros Hfail. unfold Service.executeTokenRequest, bind, tick, emit, ret, alloc; cbn.
  destruct (httpDo env (step w)) as [| |code body] eqn:E; cbn.
  - eexists _, []. split; [reflexivity|]. discriminate.
  - eexists _, [_]. split; [reflexivity|]. discriminate.
  - destruct (Z.eqb_spec code 200) as [->|Hne]; cbn.
    + destruct (json_Decode env body) as [resp|] eqn:D.
      * exfalso. exact (Hfail body resp eq_refl D).
      * eexists _, [_]. split; [reflexivity|]. intros c b [= <- <-]. congruence.
    + eexists _, [_]. split; [reflexivity|]. intros c b [= <- <-] _. reflexivity.
Qed.

(** X13.  A grant that the upstream does not answer with status 200 and a
    body that decodes stores nothing, whatever the store: [HandleCallback]
    and, for a user whose record is loaded, [RefreshToken] return an error
    and leave the token objects, the cache and Redis as they were; when
    the upstream answered with another status, the error carries that
    status and the body. *)
Theorem failed_grant_stores_nothing (env : Env) (config : OAuthConfig)
    (store : TokenStore) (code state u : string) (w w1 : World) (p : ptr)
    (old : OAuthToken) :
  let rejected (i : nat) :=
    forall body resp, httpDo env i = HttpStatus 200 body ->
                      json_Decode env body = Some resp -> False in
  let unchanged (w0 w' : World) :=
    heap w' = heap w0 /\ localCache w' = localCache w0 /\ redisDB w' = redisDB w0 in
  (rejected (step w) ->
   exists e w',
     Service.HandleCallback env config store code state u w = Some (Err e, w') /\
     unchanged w w' /\
     forall c body, httpDo env (step w) = HttpStatus c body -> c <> 200 ->
                    e = ErrStatus c body) /\
  (GetToken store u w = Some (Ok p, w1) ->
   heap w1 !! p = Some old ->
   rejected (step w1) ->
   exists e w',
     Service.RefreshToken env config store u w = Some (Err e, w') /\
     unchanged w1 w' /\
     forall c body, httpDo env (step w1) = HttpStatus c body -> c <> 200 ->
                    e = ErrStatus c body).
Proof.
  intros rejected unchanged. split.
  - intros Hrej. unfold Service.HandleCallback.
    destruct (executeTokenRequest_failed env config
                [("grant_type", "authorization_code"); ("code", code);
                 ("redirect_uri", RedirectURI config)] w Hrej)
      as (e & l & He & Hstatus).
    rewrite (bind_Some _ _ _ _ _ He). eexists _, _. split; [reflexivity|].
    split; [repeat split|exact Hstatus].
  - intros Hg Hp Hrej. unfold Service.RefreshToken.
    rewrite (bind_Some _ _ _ _ _ Hg). mstep.
    destruct (executeTokenRequest_failed env config
                [("grant_type", "refresh_token");
                 ("refresh_token", Models.RefreshToken old)] w1 Hrej)
      as (e & l & He & Hstatus).
    rewrite (bind_Some _ _ _ _ _ He). eexists _, _. split; [reflexivity|].
    split; [repeat split|exact Hstatus].
Qed.

Lemma failed_grant_stores_nothing_witness :
  exists e w',
    Service.RefreshToken Examples.envRevokeFails Examples.config
      (FallbackTokenStore.store Examples.envRevokeFails "qb") "u1"
      Examples.worldCached = Some (Err e, w') /\
    heap w' = heap Examples.worldLoaded /\
    localCache w' = localCache Examples.worldLoaded /\
    redisDB w' = redisDB Examples.worldLoaded /\
    e = ErrStatus 400 "invalid_request".
Proof.
  destruct (failed_grant_stores_nothing Examples.envRevokeFails Examples.config
              (FallbackTokenStore.store Examples.envRevokeFails "qb") "" "" "u1"
              Examples.worldCached Examples.worldLoaded 1%positive Examples.oldRecord)
    as [_ Hrefresh].
  destruct (Hrefresh ltac:(vm_compute; reflexivity) ltac:(vm_compute; reflexivity)
              ltac:(intros body resp; discriminate))
    as (e & w' & Hr & (Hh & Hc & Hd) & Hstatus).
  exists e, w'. repeat (split; [assumption|]).
  apply (Hstatus 400 "invalid_request"); [reflexivity | discriminate].
Defined.

Lemma Seconds_exact (n : Z) :
  -9223372036 <= n <= 9223372036 -> GoTime.Seconds n = n * GoTime.Second.
Proof.
  intros H. unfold GoTime.Seconds, GoTime.Second. apply wrap64_small.
  unfold GoTime.minDuration, GoTime.maxDuration. lia.
Qed.

(** X14.  The expiry of an exchanged record is derived, not taken from the
    wire.  When the upstream answers the code exchange with a decoded
    response whose lifetime is between 0 and 9223372036 seconds,
    [HandleCallback] on the resilient store returns and caches a record
    that expires at the time of the exchange plus that lifetime, whatever
    expiry the response carried; the tokens and the lifetime are the
    response's. *)
Theorem HandleCallback_derives_expiry (env : Env) (config : OAuthConfig)
    (prefix code state u : string) (w : World) (body : string) (resp : OAuthToken) :
  httpDo env (step w) = HttpStatus 200 body ->
  json_Decode env body = Some resp ->
  0 <= ExpiresIn resp <= 9223372036 ->
  exists q w' rec,
    Service.HandleCallback env config (FallbackTokenStore.store env prefix)
      code state u w = Some (Ok q, w') /\
    localCache w' !! u = Some q /\ heap w' !! q = Some rec /\
    ExpiresAt rec = clock env (S (step w)) + ExpiresIn resp * GoTime.Second /\
    AccessToken rec = AccessToken resp /\
    Models.RefreshToken rec = Models.RefreshToken resp /\
    ExpiresIn rec = ExpiresIn resp.
Proof.
  intros Hh Hd Hrange.
  destruct (HandleCallback_success env config prefix code state u w body resp Hh Hd)
    as (q & w' & Hcb & _ & Hheap & Hcache).
  destruct (withQueryRealm_fields env config resp) as (Fa & Fr & _ & Fi & _).
  exists q, w'. eexists. split; [exact Hcb|].
  rewrite Hcache, Hheap, !lookup_insert_eq. repeat split; cbn; try assumption.
  rewrite Seconds_exact by lia. reflexivity.
Qed.

Lemma HandleCallback_derives_expiry_witness :
  exists q w' rec,
    Service.HandleCallback Examples.envExchange Examples.config
      (FallbackTokenStore.store Examples.envExchange "qb") "abc" "st" "u1"
      Examples.emptyWorld = Some (Ok q, w') /\
    localCache w' !! "u1" = Some q /\ heap w' !! q = Some rec /\
    ExpiresAt rec = 3600 * GoTime.Second.
Proof.
  destruct (HandleCallback_derives_expiry Examples.envExchange Examples.config
              "qb" "abc" "st" "u1" Examples.emptyWorld "grant" Examples.exchanged
              ltac:(reflexivity) ltac:(reflexivity)
              ltac:(vm_compute; split; discriminate))
    as (q & w' & rec & Hcb & Hc & Hh & He & _).
  exists q, w', rec. repeat (split; [assumption|]). exact He.
Defined.

Lemma Disconnect_revoked (env : Env) (config : OAuthConfig) (prefix u : string)
    (w w1 : World) (p : ptr) (t : OAuthToken) :
  FallbackTokenStore.GetToken env prefix u w = Some (Ok p, w1) ->
  heap w1 !! p = Some t ->
  httpOK (httpDo env (step w1)) = true ->
  httpOK (httpDo env (S (step w1))) = true ->
  Service.Disconnect env config (FallbackTokenStore.store env prefix) u w =
    FallbackTokenStore.DeleteToken env prefix u
      (mkWorld (heap w1) (localCache w1) (redisDB w1) (S (S (step w1)))
               (revokeRequest config (Models.RefreshToken t)
                :: revokeRequest config (AccessToken t) :: trace w1)).
Proof.
  intros Hg Hp H1 H2. unfold Service.Disconnect.
  cbn [GetToken DeleteToken FallbackTokenStore.store].
  rewrite (bind_Some _ _ _ _ _ Hg). mstep.
  destruct (revokeToken_run env config (AccessToken t) w1) as (r1 & Hr1 & Hok1).
  rewrite H1 in Hok1. subst r1.
  rewrite (bind_Some _ _ _ _ _ Hr1). mstep.
  match goal with |- context [bind (Service.revokeToken env config ?tok) _ ?W] =>
    destruct (revokeToken_run env config tok W) as (r2 & Hr2 & Hok2)
  end.
  cbn [step] in Hok2, Hr2. rewrite H2 in Hok2. subst r2.
  rewrite (bind_Some _ _ _ _ _ Hr2).
  cbn [heap localCache redisDB trace step].
  destruct (httpDo env (step w1)); try discriminate.
  destruct (httpDo env (S (step w1))); try discriminate.
  reflexivity.
Qed.

(** X15.  What a successful disconnect removes.  For a user whose record
    is loaded and an upstream that accepts both revocations, [Disconnect]
    on the resilient store succeeds and removes the cache entry.  When at
    the delete the durable tier is trusted and Redis answers, the Redis
    entry is removed too and a read that follows fails with the not-found
    error.  When the durable tier is not trusted at the delete, the Redis
    entry is left as it was. *)
Theorem Disconnect_removes_record (env : Env) (config : OAuthConfig)
    (prefix u : string) (w w1 : World) (p : ptr) (t : OAuthToken) :
  FallbackTokenStore.GetToken env prefix u w = Some (Ok p, w1) ->
  heap w1 !! p = Some t ->
  httpOK (httpDo env (step w1)) = true ->
  httpOK (httpDo env (S (step w1))) = true ->
  exists w',
    Service.Disconnect env config (FallbackTokenStore.store env prefix) u w
      = Some (None, w') /\
    localCache w' !! u = None /\
    (healthCheck env (S (S (step w1))) = true ->
     redisUp env (S (S (S (step w1)))) = true ->
     redisDB w' !! RedisTokenStore.key prefix u = None /\
     exists w2, FallbackTokenStore.GetToken env prefix u w'
                = Some (Err ErrTokenNotFound, w2)) /\
    (healthCheck env (S (S (step w1))) = false -> redisDB w' = redisDB w1).
Proof.
  intros Hg Hp H1 H2.
  rewrite (Disconnect_revoked env config prefix u w w1 p t Hg Hp H1 H2).
  match goal with |- context [FallbackTokenStore.DeleteToken env prefix u ?W] =>
    destruct (fallback_DeleteToken_full env prefix u W)
      as (w' & l & Hd & _ & Hc & _ & Hl)
  end.
  cbn [step localCache redisDB] in Hc, Hl.
  exists w'. split; [exact Hd|].
  split; [rewrite Hc; apply lookup_delete_eq|]. split.
  - intros Hh Hup. rewrite Hh, Hup in Hl. destruct Hl as (_ & _ & Hdb).
    assert (Hgone : redisDB w' !! RedisTokenStore.key prefix u = None)
      by (rewrite Hdb; apply lookup_delete_eq).
    split; [exact Hgone|].
    destruct (fallback_GetToken_spec env prefix u w')
      as (r & w2 & l2 & Hg2 & _ & _ & _ & Hv).
    assert (Hdv : durableValue env prefix u w' = None).
    { unfold durableValue, redisValue. cbn [step set_step redisDB]. rewrite Hgone.
      destruct (healthCheck env (step w')); [|reflexivity].
      destruct (redisUp env (S (step w'))); reflexivity. }
    rewrite Hdv, Hc, lookup_delete_eq in Hv. destruct Hv as (-> & _).
    exists w2. exact Hg2.
  - intros Hh. rewrite Hh in Hl. tauto.
Qed.

Lemma Disconnect_removes_record_witness :
  exists w' w2,
    Service.Disconnect Examples.envAllUp Examples.config
      (FallbackTokenStore.store Examples.envAllUp "qb") "u1" Examples.worldCached
      = Some (None, w') /\
    localCache w' !! "u1" = None /\
    redisDB w' !! RedisTokenStore.key "qb" "u1" = None /\
    FallbackTokenStore.GetToken Examples.envAllUp "qb" "u1" w'
      = Some (Err ErrTokenNotFound, w2).
Proof.
  destruct (Disconnect_removes_record Examples.envAllUp Examples.config "qb" "u1"
              Examples.worldCached Examples.worldLoadedUp 1%positive Examples.oldRecord
              ltac:(vm_compute; reflexivity) ltac:(vm_compute; reflexivity)
              ltac:(reflexivity) ltac:(reflexivity))
    as (w' & Hd & Hc & Hup & _).
  destruct (Hup ltac:(reflexivity) ltac:(reflexivity)) as (Hgone & w2 & Hg).
  exists w', w2. auto.
Defined.

(** ** The middlewares *)

(** X16.  The guard of the API routes, whatever the token store.  When the
    middlewares of the API routes call the next handler, the X-User-ID
    header was not empty and is the user id of the context handed on; the
    context carries a token object that [GetValidToken] returned for that
    user, whose realm id is not empty, and [GetCompanyID] on the context
    succeeds with that realm id. *)
Theorem apiMiddlewares_pass_only_bound_tokens (env : Env) (config : OAuthConfig)
    (store : TokenStore) (header : string) (ctx ctx' : Middleware.Context)
    (w w' : World) :
  Middleware.apiMiddlewares env config store header ctx w
    = Some (Middleware.Next ctx', w') ->
  header <> "" /\
  Middleware.GetUserID ctx' = header /\
  exists token rec,
    Service.GetValidToken env config store header w = Some (Ok token, w') /\
    Middleware.GetToken ctx' = Some token /\
    heap w' !! token = Some rec /\
    RealmID rec <> "" /\
    Middleware.GetCompanyID ctx' = Some (RealmID rec).
Proof.
  unfold Middleware.apiMiddlewares, Middleware.UserMiddleware.
  destruct (String.eqb_spec header "") as [->|Hne]; [discriminate|].
  unfold Middleware.QBAuthMiddleware.
  change (Middleware.GetUserID
            (Middleware.WithValue ctx Middleware.UserIDKey
               (Middleware.StringValue header))) with header.
  destruct (String.eqb_spec header "") as [->|_]; [congruence|].
  unfold bind at 1.
  destruct (Service.GetValidToken env config store header w) as [[[token|e] w1]|];
    [|discriminate|discriminate].
  unfold getf, bind, load, ret.
  destruct (heap w1 !! token) as [rec|] eqn:Hrec; [|discriminate].
  destruct (String.eqb_spec (RealmID rec) "") as [Hempty|Hbound]; [discriminate|].
  rewrite Hrec. intros [= <- <-].
  split; [exact Hne|]. split; [reflexivity|].
  exists token, rec. split; [reflexivity|]. split; [reflexivity|].
  split; [exact Hrec|]. split; [exact Hbound|].
  unfold Middleware.GetCompanyID. cbn.
  destruct (String.eqb_spec (RealmID rec) ""); congruence.
Qed.

Lemma apiMiddlewares_pass_only_bound_tokens_witness :
  exists ctx' w' token rec,
    Middleware.apiMiddlewares Examples.envAllUp Examples.config
      (FallbackTokenStore.store Examples.envAllUp "qb") "u1" [] Examples.worldCached
      = Some (Middleware.Next ctx', w') /\
    Middleware.GetUserID ctx' = "u1" /\
    Middleware.GetToken ctx' = Some token /\
    heap w' !! token = Some rec /\
    RealmID rec <> "" /\
    Middleware.GetCompanyID ctx' = Some (RealmID rec).
Proof.
  evar (c : Middleware.Context). evar (w1 : World).
  assert (Hrun : Middleware.apiMiddlewares Examples.envAllUp Examples.config
                   (FallbackTokenStore.store Examples.envAllUp "qb") "u1" []
                   Examples.worldCached = Some (Middleware.Next c, w1))
    by (subst c w1; vm_compute; reflexivity).
  destruct (apiMiddlewares_pass_only_bound_tokens _ _ _ _ _ _ _ _ Hrun)
    as (_ & Hu & token & rec & _ & Ht & Hh & Hr & Hc).
  exists c, w1, token, rec.
  split; [exact Hrun|]. split; [exact Hu|]. split; [exact Ht|].
  split; [exact Hh|]. split; [exact Hr|exact Hc].
Defined.

Lemma GetValidToken_fresh (env : Env) (config : OAuthConfig) (prefix u : string)
    (w w1 : World) (p : ptr) (t : OAuthToken) :
  FallbackTokenStore.GetToken env prefix u w = Some (Ok p, w1) ->
  heap w1 !! p = Some t ->
  5 * GoTime.Minute <= ExpiresAt t - clock env (step w1) ->
  Service.GetValidToken env config (FallbackTokenStore.store env prefix) u w
    = Some (Ok p, set_step w1 (S (step w1))).
Proof.
  intros Hg Hp Hm. unfold Service.GetValidToken.
  cbn [GetToken FallbackTokenStore.store].
  rewrite (bind_Some _ _ _ _ _ Hg). do 2 mstep. rewrite Until_margin.
  destruct (Z.ltb_spec (ExpiresAt t - clock env (step w1)) (5 * GoTime.Minute));
    [lia|reflexivity].
Qed.

(** X17.  [QBAuthMiddleware] over the resilient store, for a request whose
    context carries a user id.  When the user has no record, the request
    is refused with 401.  When the user's record is loaded and expires 5
    minutes or more from now, the record is not refreshed and the store is
    not changed; the request is refused with 401 if the record has no
    realm id, and otherwise handed on with the token and its realm id in
    the context. *)
Theorem QBAuthMiddleware_refuses_unbound_record (env : Env) (config : OAuthConfig)
    (prefix : string) (ctx : Middleware.Context) (w w1 : World) :
  Middleware.GetUserID ctx <> "" ->
  let u := Middleware.GetUserID ctx in
  let store := FallbackTokenStore.store env prefix in
  (forall e,
     FallbackTokenStore.GetToken env prefix u w = Some (Err e, w1) ->
     Middleware.QBAuthMiddleware env config store ctx w
       = Some (Middleware.Respond "QuickBooks authentication required" 401, w1)) /\
  (forall p t,
     FallbackTokenStore.GetToken env prefix u w = Some (Ok p, w1) ->
     heap w1 !! p = Some t ->
     5 * GoTime.Minute <= ExpiresAt t - clock env (step w1) ->
     Middleware.QBAuthMiddleware env config store ctx w
       = Some (if String.eqb (RealmID t) ""
               then Middleware.Respond "QuickBooks company not connected" 401
               else Middleware.Next
                      (Middleware.WithValue
                         (Middleware.WithValue ctx Middleware.TokenKey
                            (Middleware.TokenValue p))
                         Middleware.CompanyIDKey
                         (Middleware.StringValue (RealmID t))),
               set_step w1 (S (step w1)))).
Proof.
  intros Hu u store. apply String.eqb_neq in Hu.
  unfold Middleware.QBAuthMiddleware. fold u. fold u in Hu. rewrite Hu. split.
  - intros e Hg.
    assert (Hv : Service.GetValidToken env config store u w
                 = Some (Err (ErrWrap "failed to get token" e), w1)).
    { unfold Service.GetValidToken. cbn [GetToken store FallbackTokenStore.store].
      rewrite (bind_Some _ _ _ _ _ Hg). reflexivity. }
    rewrite (bind_Some _ _ _ _ _ Hv). reflexivity.
  - intros p t Hg Hp Hm.
    rewrite (bind_Some _ _ _ _ _
               (GetValidToken_fresh env config prefix u w w1 p t Hg Hp Hm)).
    mstep. destruct (String.eqb (RealmID t) ""); [reflexivity|].
    mstep. reflexivity.
Qed.

Lemma QBAuthMiddleware_refuses_unbound_record_witness :
  Middleware.QBAuthMiddleware Examples.envRevokeFails Examples.config
    (FallbackTokenStore.store Examples.envRevokeFails "qb") Examples.ctxU1
    Examples.worldFreshCached
  = Some (Middleware.Next
            (Middleware.WithValue
               (Middleware.WithValue Examples.ctxU1 Middleware.TokenKey
                  (Middleware.TokenValue 1%positive))
               Middleware.CompanyIDKey (Middleware.StringValue "9991")),
          set_step Examples.worldFreshLoaded 2).
Proof.
  destruct (QBAuthMiddleware_refuses_unbound_record Examples.envRevokeFails
              Examples.config "qb" Examples.ctxU1 Examples.worldFreshCached
              Examples.worldFreshLoaded ltac:(discriminate)) as [_ Hfresh].
  apply (Hfresh 1%positive Examples.newRecord);
    vm_compute; first [reflexivity | discriminate].
Defined.

(** ** The handlers *)

(** X18.  A callback that fails a check of the handler has no effect,
    whatever the token store.  When the context has no user id, the code or
    the state is empty, or the state differs from the one saved in the
    session, [CallbackHandler] answers 401 or 400 and the world is as it
    was.  When those checks pass but the saved state has no expiry or has
    expired, it answers 400; nothing is stored and nothing is sent. *)
Theorem CallbackHandler_rejection_has_no_effect (env : Env) (config : OAuthConfig)
    (store : TokenStore) (r : Handler.Request) (w : World) :
  (Handler.ctxUserID r = "" \/ Handler.queryCode r = "" \/
   Handler.queryState r = "" \/
   Handler.qb_state (Handler.session r) <> Some (Handler.queryState r) ->
   exists msg status,
     Handler.CallbackHandler env config store r w
       = Some (Handler.HttpError msg status, w) /\
     (status = 401 \/ status = 400)) /\
  (Handler.ctxUserID r <> "" -> Handler.queryCode r <> "" ->
   Handler.queryState r <> "" ->
   Handler.qb_state (Handler.session r) = Some (Handler.queryState r) ->
   match Handler.qb_state_expiry (Handler.session r) with
   | None => True
   | Some expiry => expiry < clock env (step w) / GoTime.Second
   end ->
   exists w',
     Handler.CallbackHandler env config store r w
       = Some (Handler.HttpError "State parameter expired" 400, w') /\
     heap w' = heap w /\ localCache w' = localCache w /\
     redisDB w' = redisDB w /\ trace w' = trace w).
Proof.
  unfold Handler.CallbackHandler. split.
  - intros Hbad.
    destruct (String.eqb_spec (Handler.ctxUserID r) "") as [Hu|Hu];
      [eexists _, _; split; [reflexivity|]; auto|].
    destruct (String.eqb_spec (Handler.queryCode r) "") as [Hc|Hc];
      [eexists _, _; split; [reflexivity|]; auto|].
    destruct (String.eqb_spec (Handler.queryState r) "") as [Hs|Hs];
      [eexists _, _; split; [reflexivity|]; auto|].
    cbn [orb].
    destruct (Handler.qb_state (Handler.session r)) as [saved|];
      [|eexists _, _; split; [reflexivity|]; auto].
    destruct (String.eqb_spec saved (Handler.queryState r)) as [->|Hne];
      [|eexists _, _; split; [reflexivity|]; auto].
    exfalso. destruct Hbad as [?|[?|[?|?]]]; congruence.
  - intros Hu Hc Hs Hsaved Hexp.
    apply String.eqb_neq in Hu, Hc, Hs. rewrite Hu, Hc, Hs. cbn [orb].
    rewrite Hsaved, String.eqb_refl. cbn [negb].
    destruct (Handler.qb_state_expiry (Handler.session r)) as [expiry|].
    + rewrite bind_assoc. do 2 mstep.
      destruct (Z.ltb_spec expiry (clock env (step w) / GoTime.Second)); [|lia].
      eexists. split; [reflexivity|]. repeat split.
    + mstep. eexists. split; [reflexivity|]. repeat split.
Qed.

Lemma CallbackHandler_rejection_has_no_effect_witness :
  exists msg status,
    Handler.CallbackHandler Examples.envExchange Examples.config
      (FallbackTokenStore.store Examples.envExchange "qb")
      (Handler.mkRequest "u1" "abc" "forged" "9991"
         (Handler.mkSession (Some "st") (Some 600) true))
      Examples.emptyWorld
    = Some (Handler.HttpError msg status, Examples.emptyWorld) /\
    (status = 401 \/ status = 400).
Proof.
  destruct (CallbackHandler_rejection_has_no_effect Examples.envExchange
              Examples.config (FallbackTokenStore.store Examples.envExchange "qb")
              (Handler.mkRequest "u1" "abc" "forged" "9991"
                 (Handler.mkSession (Some "st") (Some 600) true))
              Examples.emptyWorld) as [Hreject _].
  apply Hreject. right. right. right. discriminate.
Defined.



(** X20.  [StatusHandler] over the resilient store, for a request whose
    context carries a user id and a cache without nil pointers: it answers
    200 in every case, sends nothing to the upstream and refreshes
    nothing.  It reports the record the store's read returns, the durable
    value when the durable read yields one and the cached record
    otherwise, with its realm id and its expiry, also when that expiry has
    passed; it reports not connected exactly when both tiers yield
    nothing. *)
Theorem StatusHandler_reports_stored_record (env : Env) (prefix : string)
    (ctx : Middleware.Context) (w : World) :
  Middleware.GetUserID ctx <> "" ->
  cache_wf w ->
  let u := Middleware.GetUserID ctx in
  exists resp w' l,
    Handlers.StatusHandler (FallbackTokenStore.store env prefix) ctx w
      = Some (resp, w') /\
    trace w' = l ++ trace w /\ List.filter isUpstreamRequest l = [] /\
    match durableValue env prefix u w with
    | Some t => resp = Handlers.Connected (RealmID t) (ExpiresAt t)
    | None =>
        match localCache w !! u with
        | Some p => exists t, heap w !! p = Some t /\
                              resp = Handlers.Connected (RealmID t) (ExpiresAt t)
        | None => resp = Handlers.NotConnected
        end
    end.
Proof.
  intros Hu Hwf u. apply String.eqb_neq in Hu.
  unfold Handlers.StatusHandler. fold u. fold u in Hu. rewrite Hu.
  cbn [GetToken FallbackTokenStore.store].
  destruct (fallback_GetToken_spec env prefix u w)
    as (r & w1 & l0 & Hg & _ & _ & _ & Hv).
  destruct (fallback_GetToken_no_upstream env prefix u w w1 r Hg) as (l & Ht & Hl).
  rewrite (bind_Some _ _ _ _ _ Hg).
  destruct (durableValue env prefix u w) as [t|].
  - destruct Hv as (q & -> & _ & Hh & _).
    assert (Hq : heap w1 !! q = Some t) by (rewrite Hh; apply lookup_insert_eq).
    do 2 mstep. eexists _, w1, l. repeat split; assumption.
  - destruct Hv as (-> & _ & Hh).
    destruct (localCache w !! u) as [p|] eqn:Hc.
    + destruct (Hwf u p Hc) as [t Hp].
      assert (Hq : heap w1 !! p = Some t) by (rewrite Hh; exact Hp).
      do 2 mstep. eexists _, w1, l. split; [reflexivity|].
      split; [exact Ht|]. split; [exact Hl|]. exists t. auto.
    + eexists _, w1, l. repeat split; assumption.
Qed.

Lemma worldCached_wf : cache_wf Examples.worldCached.
Proof.
  intros u p H. unfold Examples.worldCached in H. cbn [localCache] in H.
  apply lookup_singleton_Some in H as [<- <-]. vm_compute. eauto.
Defined.

Lemma StatusHandler_reports_stored_record_witness :
  exists w',
    Handlers.StatusHandler (FallbackTokenStore.store Examples.envRefresh "qb")
      Examples.ctxU1 Examples.worldCached
    = Some (Handlers.Connected "9991" 0, w').
Proof.
  destruct (StatusHandler_reports_stored_record Examples.envRefresh "qb"
              Examples.ctxU1 Examples.worldCached ltac:(discriminate) worldCached_wf)
    as (resp & w' & l & Hrun & _ & _ & Hresp).
  exists w'. rewrite Hrun.
  change (exists t, heap Examples.worldCached !! 1%positive = Some t /\
                    resp = Handlers.Connected (RealmID t) (ExpiresAt t)) in Hresp.
  destruct Hresp as (t & Ht & ->).
  assert (Hold : heap Examples.worldCached !! 1%positive = Some Examples.oldRecord)
    by (vm_compute; reflexivity).
  rewrite Hold in Ht. injection Ht as <-. reflexivity.
Defined.

(** X21.  [DisconnectHandler] over the resilient store.  Without a user
    id in the context it answers 401 and does nothing.  For a user unknown
    to both tiers it answers 500.  For a user whose record is loaded and
    an upstream that accepts both revocations it answers success, and the
    user's cache entry is gone. *)
Theorem DisconnectHandler_outcomes (env : Env) (config : OAuthConfig)
    (prefix : string) (ctx : Middleware.Context) (w : World) :
  let u := Middleware.GetUserID ctx in
  let store := FallbackTokenStore.store env prefix in
  (u = "" ->
   Handlers.DisconnectHandler env config store ctx w
     = Some (Handlers.Error "Unauthorized" 401, w)) /\
  (u <> "" -> localCache w !! u = None -> durableValue env prefix u w = None ->
   exists w',
     Handlers.DisconnectHandler env config store ctx w
       = Some (Handlers.Error "Failed to disconnect" 500, w') /\
     localCache w' = localCache w /\ redisDB w' = redisDB w) /\
  (forall w1 p t,
     u <> "" ->
     FallbackTokenStore.GetToken env prefix u w = Some (Ok p, w1) ->
     heap w1 !! p = Some t ->
     httpOK (httpDo env (step w1)) = true ->
     httpOK (httpDo env (S (step w1))) = true ->
     exists w',
       Handlers.DisconnectHandler env config store ctx w
         = Some (Handlers.Success, w') /\
       localCache w' !! u = None).
Proof.
  intros u store. unfold Handlers.DisconnectHandler. fold u. split; [|split].
  - intros ->. reflexivity.
  - intros Hu Hc Hdv. apply String.eqb_neq in Hu. rewrite Hu.
    destruct (fallback_GetToken_spec env prefix u w)
      as (r & w1 & l0 & Hg & Hdb & _ & _ & Hv).
    rewrite Hdv, Hc in Hv. destruct Hv as (-> & Hcache & _).
    assert (Hd : Service.Disconnect env config store u w
                 = Some (Some (ErrWrap "failed to get token for revocation"
                                       ErrTokenNotFound), w1)).
    { unfold Service.Disconnect. cbn [GetToken store FallbackTokenStore.store].
      rewrite (bind_Some _ _ _ _ _ Hg). reflexivity. }
    rewrite (bind_Some _ _ _ _ _ Hd). exists w1. auto.
  - intros w1 p t Hu Hg Hp H1 H2. apply String.eqb_neq in Hu. rewrite Hu.
    pose proof (Disconnect_revoked env config prefix u w w1 p t Hg Hp H1 H2) as Hd.
    match type of Hd with _ = FallbackTokenStore.DeleteToken env prefix u ?W =>
      destruct (fallback_DeleteToken_full env prefix u W)
        as (w' & l & Hdel & _ & Hc & _)
    end.
    rewrite Hdel in Hd. fold store in Hd.
    rewrite (bind_Some _ _ _ _ _ Hd). exists w'. split; [reflexivity|].
    rewrite Hc. apply lookup_delete_eq.
Qed.

Lemma DisconnectHandler_outcomes_witness :
  exists w',
    Handlers.DisconnectHandler Examples.envAllUp Examples.config
      (FallbackTokenStore.store Examples.envAllUp "qb") Examples.ctxU1
      Examples.worldCached = Some (Handlers.Success, w') /\
    localCache w' !! "u1" = None.
Proof.
  destruct (DisconnectHandler_outcomes Examples.envAllUp Examples.config "qb"
              Examples.ctxU1 Examples.worldCached) as (_ & _ & Hok).
  apply (Hok Examples.worldLoadedUp 1%positive Examples.oldRecord);
    vm_compute; first [reflexivity | discriminate].
Defined.

(** ** The API client *)



(** ** The service over the plain Redis-backed store *)

(** X23.  Over the plain Redis-backed store a refresh whose save fails is
    lost.  For a user whose record is loaded from Redis and an upstream
    that answers the grant, when the SET of the refreshed record fails,
    [RefreshToken] returns the save's error wrapped, although the grant
    was made: the request was sent, and Redis still holds what it held
    before. *)
Theorem RefreshToken_over_redis_loses_failed_save (env : Env) (config : OAuthConfig)
    (prefix u : string) (w w1 : World) (p : ptr) (old resp : OAuthToken)
    (body : string) :
  RedisTokenStore.GetToken env prefix u w = Some (Ok p, w1) ->
  heap w1 !! p = Some old ->
  httpDo env (step w1) = HttpStatus 200 body ->
  json_Decode env body = Some resp ->
  redisUp env (S (S (S (step w1)))) = false ->
  exists e w',
    Service.RefreshToken env config (RedisTokenStore.store env prefix) u w
      = Some (Err (ErrWrap "failed to save refreshed token" e), w') /\
    redisDB w' = redisDB w1 /\
    In (EvTokenRequest (refreshForm (Models.RefreshToken old))) (trace w').
Proof.
  intros Hg Hp Hh Hd Hdown. unfold Service.RefreshToken.
  cbn [GetToken SaveToken RedisTokenStore.store].
  rewrite (bind_Some _ _ _ _ _ Hg). mstep.
  rewrite (bind_Some _ _ _ _ _
             (executeTokenRequest_ok env config _ body resp w1 Hh Hd)).
  set (q := fresh (dom (heap w1))).
  assert (Hq : heap w1 !! q = None) by apply (alloc_fresh old).
  assert (Hpq : q <> p) by (intros ->; congruence).
  do 6 mstep.
  assert (Hsave : forall W t,
            heap W !! q = Some t -> step W = S (S (step w1)) ->
            redisDB W = redisDB w1 ->
            In (EvTokenRequest (refreshForm (Models.RefreshToken old))) (trace W) ->
            exists e w',
              bind (RedisTokenStore.SaveToken env prefix u q)
                   (fun err => match err with
                               | Some e0 => ret (Err (ErrWrap "failed to save refreshed token" e0))
                               | None => ret (Ok q)
                               end) W
              = Some (Err (ErrWrap "failed to save refreshed token" e), w') /\
              redisDB w' = redisDB w1 /\
              In (EvTokenRequest (refreshForm (Models.RefreshToken old))) (trace w')).
  { intros W t Ht Hstep Hdb Hin.
    destruct (redis_SaveToken_spec env prefix u q t W Ht)
      as (err & w' & l & Hs & _ & _ & Htr & _).
    destruct (redis_SaveToken_failed env prefix u q t W Ht) as (e & w'' & Hs' & _ & _ & Hdb').
    { right. rewrite Hstep. exact Hdown. }
    rewrite Hs in Hs'. injection Hs' as -> <-.
    exists e, w'. rewrite (bind_Some _ _ _ _ _ Hs).
    split; [reflexivity|]. split; [congruence|].
    rewrite Htr. right. apply in_or_app. right. exact Hin. }
  match goal with
  | |- context [String.eqb ?s ""] => destruct (String.eqb s "")
  end.
  - rewrite bind_assoc. do 2 mstep.
    match goal with |- exists e w', bind _ _ ?W = _ /\ _ =>
      apply (Hsave W _ ltac:(heap_lookup) eq_refl eq_refl)
    end.
    left. reflexivity.
  - mstep.
    match goal with |- exists e w', bind _ _ ?W = _ /\ _ =>
      apply (Hsave W _ ltac:(heap_lookup) eq_refl eq_refl)
    end.
    left. reflexivity.
Qed.

Lemma RefreshToken_over_redis_loses_failed_save_witness :
  exists e w',
    Service.RefreshToken Examples.envSaveFails Examples.config
      (RedisTokenStore.store Examples.envSaveFails "qb") "u1" Examples.worldOldInRedis
      = Some (Err (ErrWrap "failed to save refreshed token" e), w') /\
    redisDB w' !! "qb:token:u1" = Some ("old", 0).
Proof.
  evar (p : ptr). evar (w1 : World).
  assert (Hget : RedisTokenStore.GetToken Examples.envSaveFails "qb" "u1"
                   Examples.worldOldInRedis = Some (Ok p, w1))
    by (subst p w1; vm_compute; reflexivity).
  destruct (RefreshToken_over_redis_loses_failed_save Examples.envSaveFails
              Examples.config "qb" "u1" Examples.worldOldInRedis w1 p
              Examples.oldRecord Examples.exchanged "grant" Hget
              ltac:(vm_compute; reflexivity) ltac:(reflexivity)
              ltac:(reflexivity) ltac:(reflexivity))
    as (e & w' & Hrun & Hdb & _).
  exists e, w'. split; [exact Hrun|]. rewrite Hdb. vm_compute. reflexivity.
Defined.
